(** * Watch-list enrichment pipeline (src/app.py): a shallow embedding

    The script refreshes a watch-list of Taiwanese tickers: it discovers the
    generative models on offer, collects market facts per ticker, asks the
    models for an analysis (first parseable answer wins), merges facts, answer
    and the previous record, and writes the list back.

    Conventions of the embedding.
    - Python [str] is [string] (a byte sequence; UTF-8 text is kept as bytes).
      [str.strip()] and [str.upper()], which depend on the Unicode tables,
      are library functions taken as given.
    - A Python [float] and a [numpy.float64] are binary64 values
      ([spec_float] at precision 53): signed zeros, infinities and NaN are
      values like the others, and arithmetic rounds to nearest, ties to even.
      Fixed two-decimal formatting prints the exact value of the float,
      rounded half to even; [float(text)] is the float nearest to the
      decimal.
    - A Python [dict] is an association list in insertion order.
    - An exception is a value of [exn]; every handler of the script is a
      catch-all, so only the fact that something was raised is observable.
    - Every call that leaves the process (market data, model service, clock)
      is represented by its outcome, stored in a record of outcomes; the
      script is a function of those outcomes. *)

From Stdlib Require Import String Ascii List Bool Arith ZArith QArith Qround Qabs Qpower.
From Stdlib Require Import Lia Lqa Field Qfield Zpower.
From Stdlib Require Import Permutation Sorted.
From Stdlib Require Import DecimalString DecimalN.
From Stdlib Require Import Floats.SpecFloat.
Import ListNotations.
Close Scope Q_scope.
Open Scope string_scope.

(* ================================================================= *)
(** ** Exceptions *)

Inductive exn : Type :=
| TypeError | AttributeError | KeyError | IndexError
| ZeroDivisionError | ValueError
| ProviderError.   (* anything raised by yfinance / the model client *)

Inductive result (A : Type) : Type :=
| Ok (a : A)
| Raise (e : exn).
Arguments Ok {A} a.
Arguments Raise {A} e.

Definition bind {A B} (m : result A) (k : A -> result B) : result B :=
  match m with
  | Ok a => k a
  | Raise e => Raise e
  end.

Notation "x <- m ;; k" := (bind m (fun x => k))
  (at level 61, m at next level, right associativity).
Notation "' pat <- m ;; k" :=
  (bind m (fun x => match x with pat => k end))
  (at level 61, pat pattern, m at next level, right associativity).

(** [try: m except: d] is [try: x = m  except: x = d]. *)
Definition try_except {A} (m : result A) (d : A) : A :=
  match m with
  | Ok a => a
  | Raise _ => d
  end.

Definition raised {A} (m : result A) : bool :=
  match m with Ok _ => false | Raise _ => true end.

(* ================================================================= *)
(** ** Python strings *)

Definition dq : string := String "034"%char EmptyString.

(** [old in s] *)
Fixpoint contains (old s : string) : bool :=
  prefix old s ||
  match s with
  | EmptyString => false
  | String _ s' => contains old s'
  end.

(** [s.replace(old, new)] for a non-empty [old]: occurrences are found left
    to right and do not overlap.  [skip] counts the bytes of a match that
    are still to be dropped. *)
Fixpoint replace_from (skip : nat) (old new s : string) : string :=
  match s with
  | EmptyString => EmptyString
  | String c s' =>
      match skip with
      | S k => replace_from k old new s'
      | O =>
          if prefix old s
          then new ++ replace_from (String.length old - 1) old new s'
          else String c (replace_from 0 old new s')
      end
  end.

Definition replace (old new s : string) : string := replace_from 0 old new s.

(** [s.strip(chars)], with [p] telling the bytes of [chars]. *)
Fixpoint lstrip_by (p : ascii -> bool) (s : string) : string :=
  match s with
  | EmptyString => EmptyString
  | String c s' => if p c then lstrip_by p s' else s
  end.

Fixpoint rstrip_by (p : ascii -> bool) (s : string) : string :=
  match s with
  | EmptyString => EmptyString
  | String c s' =>
      match rstrip_by p s' with
      | EmptyString => if p c then EmptyString else String c EmptyString
      | r => String c r
      end
  end.

Definition strip_by (p : ascii -> bool) (s : string) : string :=
  rstrip_by p (lstrip_by p s).

(** [s.strip('%')] *)
Definition strip_percent (s : string) : string :=
  strip_by (fun c => Ascii.eqb c "%"%char) s.

(** Truthiness of a string. *)
Definition str_truthy (s : string) : bool :=
  match s with EmptyString => false | _ => true end.

(* ================================================================= *)
(** ** Numbers and their formatting *)

(** *** Binary64 values *)

Definition prec : Z := 53.
Definition emax : Z := 1024.

(** [x + y], [x - y], [x * y] and [x / y] on floats, each rounded to the
    nearest float, ties to even; a division by zero gives an infinity or
    NaN here, what Python makes of it is said where a division is used. *)
Definition fadd : spec_float -> spec_float -> spec_float := SFadd prec emax.
Definition fsub : spec_float -> spec_float -> spec_float := SFsub prec emax.
Definition fmul : spec_float -> spec_float -> spec_float := SFmul prec emax.
Definition fdiv : spec_float -> spec_float -> spec_float := SFdiv prec emax.

(** The float of an integer literal. *)
Definition float_of_Z (z : Z) : spec_float :=
  binary_normalize prec emax z 0 false.

Definition float_1 : spec_float := Eval vm_compute in float_of_Z 1.
Definition float_100 : spec_float := Eval vm_compute in float_of_Z 100.

(** [x == 0]: true of both zeros, false of NaN. *)
Definition float_is_zero (x : spec_float) : bool :=
  match x with
  | S754_zero _ => true
  | _ => false
  end.

(** Neither NaN nor an infinity. *)
Definition float_is_finite (x : spec_float) : bool :=
  match x with
  | S754_zero _ | S754_finite _ _ _ => true
  | _ => false
  end.

(** The sign bit; NaN counts as unsigned. *)
Definition sign_bit (x : spec_float) : bool :=
  match x with
  | S754_zero s | S754_infinity s | S754_finite s _ _ => s
  | S754_nan => false
  end.

(** [signed s x]: [x] is not NaN and its sign bit is [s]. *)
Definition signed (s : bool) (x : spec_float) : Prop :=
  x <> S754_nan /\ sign_bit x = s.

(** The rational a finite float [m * 2^e] stands for, without its sign,
    and with it. *)
Definition exact_abs (m : positive) (e : Z) : Q :=
  (inject_Z (Zpos m) * 2 ^ e)%Q.

Definition exact (x : spec_float) : Q :=
  match x with
  | S754_finite s m e => if s then (- exact_abs m e)%Q else exact_abs m e
  | _ => 0%Q
  end.

(** A price as the libraries hand it over: a Python [float], or a
    [numpy.float64] (an entry of a pandas column).  Both hold a binary64
    value and share arithmetic and formatting; they differ in a division
    by zero, which raises for the first and gives an infinity or NaN for
    the second.  A Python [int] below 2^53 behaves in the script as the
    Python float of its value. *)
Inductive number : Type :=
| PyFloat (x : spec_float)
| NumPy (x : spec_float).

Definition value (n : number) : spec_float :=
  match n with
  | PyFloat x => x
  | NumPy x => x
  end.

(** [a / b] for a Python float [b]. *)
Definition truediv (a : number) (b : spec_float) : result spec_float :=
  match a with
  | PyFloat x =>
      if float_is_zero b then Raise ZeroDivisionError else Ok (fdiv x b)
  | NumPy x => Ok (fdiv x b)
  end.

(** *** Two decimals *)

(** Nearest integer, ties to even. *)
Definition round_half_even (x : Q) : Z :=
  let f := Qfloor x in
  match Qcompare (x - inject_Z f) (1 # 2)%Q with
  | Lt => f
  | Gt => (f + 1)%Z
  | Eq => if Z.even f then f else (f + 1)%Z
  end.

(** Hundredths of [x] after rounding to two decimals. *)
Definition hundredths (x : Q) : Z := round_half_even (x * 100)%Q.

Definition digit_char (n : N) : ascii := ascii_of_N (48 + n)%N.

Definition string_of_N (n : N) : string :=
  NilZero.string_of_uint (N.to_uint n).

(** The digits of [h] hundredths: integer part, point, two digits. *)
Definition fixed2_abs (h : Z) : string :=
  let a := Z.to_N (Z.abs h) in
  string_of_N (a / 100)%N ++ "." ++
  String (digit_char ((a mod 100) / 10)%N)
         (String (digit_char (a mod 10)%N) EmptyString).

(** The sign printed before the digits: a minus for a set sign bit, a plus
    otherwise when the format asks for it. *)
Definition sign_text (plus neg : bool) : string :=
  if neg then "-" else if plus then "+" else EmptyString.

(** [format(x, '.2f')] and, with [plus], [format(x, '+.2f')]: the exact
    value of the float rounded to two decimals; NaN and the infinities
    are spelled out. *)
Definition format_fixed2 (plus : bool) (x : spec_float) : string :=
  match x with
  | S754_nan => sign_text plus false ++ "nan"
  | S754_infinity s => sign_text plus s ++ "inf"
  | S754_zero s => sign_text plus s ++ "0.00"
  | S754_finite s m e =>
      sign_text plus s ++ fixed2_abs (hundredths (exact_abs m e))
  end.

(** [f"{x:.2f}"] *)
Definition format_2f (x : spec_float) : string := format_fixed2 false x.

(** [f"{x:+.2f}"] *)
Definition format_signed_2f (x : spec_float) : string := format_fixed2 true x.

(** A decimal literal, digits and optionally a point followed by digits,
    read as [(n, k)] for the number [n / 10^k]. *)
Fixpoint split_point (s : string) : string * option string :=
  match s with
  | EmptyString => (EmptyString, None)
  | String c s' =>
      if Ascii.eqb c "."%char then (EmptyString, Some s')
      else let '(i, f) := split_point s' in (String c i, f)
  end.

Definition N_of_digits (s : string) : option N :=
  match s with
  | EmptyString => None
  | _ => option_map N.of_uint (NilZero.uint_of_string s)
  end.

Definition decimal_of_string (s : string) : option (N * nat) :=
  let '(i, f) := split_point s in
  match N_of_digits i with
  | None => None
  | Some ip =>
      match f with
      | None => Some (ip, O)
      | Some fs =>
          match N_of_digits fs with
          | None => None
          | Some fp =>
              Some (ip * 10 ^ N.of_nat (String.length fs) + fp,
                    String.length fs)%N
          end
      end
  end.

(** The float nearest to [n / 10^k]: the quotient of the two integers,
    rounded once. *)
Definition float_of_decimal (d : N * nat) : spec_float :=
  match fst d with
  | N0 => S754_zero false
  | Npos n =>
      fdiv (S754_finite false n 0)
           (S754_finite false (Z.to_pos (10 ^ Z.of_nat (snd d))) 0)
  end.

(** [float(s)] on the texts the script produces: an optional sign, then a
    decimal literal, [nan] or [inf]. *)
Definition float_of_string (s : string) : result spec_float :=
  let '(neg, body) :=
    match s with
    | String "-"%char r => (true, r)
    | String "+"%char r => (false, r)
    | _ => (false, s)
    end in
  match decimal_of_string body with
  | Some d =>
      let x := float_of_decimal d in Ok (if neg then SFopp x else x)
  | None =>
      if String.eqb body "nan" then Ok S754_nan
      else if String.eqb body "inf" then Ok (S754_infinity neg)
      else Raise ValueError
  end.

(** [round(x, 2)]: the float nearest to the two-decimal rounding of [x];
    NaN, the infinities and the zeros round to themselves. *)
Definition round2 (x : spec_float) : spec_float :=
  match x with
  | S754_finite s m e =>
      let r := float_of_decimal
                 (Z.to_N (Z.abs (hundredths (exact_abs m e))), 2%nat) in
      if s then SFopp r else r
  | _ => x
  end.

(* ================================================================= *)
(** ** Python dictionaries and JSON values *)

(** A [dict] with string keys, in insertion order; keys are unique. *)
Definition dict (V : Type) : Type := list (string * V).

Fixpoint dict_lookup {V} (k : string) (d : dict V) : option V :=
  match d with
  | [] => None
  | (k', v) :: d' => if String.eqb k k' then Some v else dict_lookup k d'
  end.

(** [d.get(k, dflt)] *)
Definition dict_get {V} (k : string) (dflt : V) (d : dict V) : V :=
  match dict_lookup k d with
  | Some v => v
  | None => dflt
  end.

(** [k in d] *)
Definition dict_mem {V} (k : string) (d : dict V) : bool :=
  match dict_lookup k d with
  | Some _ => true
  | None => false
  end.

(** [d[k] = v]: an existing key keeps its position, a new key goes last. *)
Fixpoint dict_set {V} (k : string) (v : V) (d : dict V) : dict V :=
  match d with
  | [] => [(k, v)]
  | (k', v') :: d' =>
      if String.eqb k k' then (k, v) :: d' else (k', v') :: dict_set k v d'
  end.

(** [list(d.keys())] *)
Definition dict_keys {V} (d : dict V) : list string := map fst d.

(** The keys a dictionary ends up with when the keys [ids] are stored one
    after the other: each id once, at the place of its first occurrence. *)
Definition note_id (seen : list string) (i : string) : list string :=
  if existsb (String.eqb i) seen then seen else (seen ++ [i])%list.

Definition first_occurrences (ids : list string) : list string :=
  fold_left note_id ids [].

(** The values [json.loads] produces and [json.dump] writes; a number is
    an [int] or a [float]. *)
#[warnings="-register-all"]
Inductive json : Type :=
| JNull
| JBool (b : bool)
| JInt (z : Z)
| JFloat (x : spec_float)
| JStr (s : string)
| JArr (items : list json)
| JObj (fields : dict json).


(** [v.get(k, dflt)]: only a [dict] has the method. *)
Definition json_get (k : string) (dflt : json) (v : json) : result json :=
  match v with
  | JObj d => Ok (dict_get k dflt d)
  | _ => Raise AttributeError
  end.

(** Reading a path of keys in a nested object, for stating properties. *)
Fixpoint json_path (ks : list string) (v : json) : option json :=
  match ks with
  | [] => Some v
  | k :: ks' =>
      match v with
      | JObj d =>
          match dict_lookup k d with
          | Some v' => json_path ks' v'
          | None => None
          end
      | _ => None
      end
  end.

(* ================================================================= *)
(** ** Library functions taken as given *)

(** A row label of a price series. *)
Record Timestamp : Type := { ts_year : N; ts_month : N; ts_day : N }.

(** A column of closing prices, oldest first; a close may be NaN. *)
Definition Series : Type := list (Timestamp * spec_float).

(** Functions of the Python libraries whose bodies are not part of the
    script: the JSON parser, the month-end resampling of pandas
    ([s.resample('ME').last()], which puts NaN where a month has no
    row), the shortest decimal form of a float ([repr]), and the two
    string methods that go by the Unicode tables, [s.strip()] and
    [s.upper()]. *)
Class PyLib : Type := {
  json_loads : string -> result json;
  resample_ME_last : Series -> Series;
  float_repr : spec_float -> string;
  str_strip : string -> string;
  str_upper : string -> string
}.

(* ================================================================= *)
(** ** 1. Model catalogue: [get_best_models] *)

(** What [genai.list_models()] yields for one model. *)
Record ModelInfo : Type := {
  name : string;
  supported_generation_methods : list string
}.

Definition in_str_list (x : string) (l : list string) : bool :=
  existsb (String.eqb x) l.

(** [l.sort(reverse=True)] on strings: insertion into a descending list. *)
Fixpoint insert_desc (x : string) (l : list string) : list string :=
  match l with
  | [] => [x]
  | y :: l' => if String.leb y x then x :: l else y :: insert_desc x l'
  end.

Fixpoint sort_desc (l : list string) : list string :=
  match l with
  | [] => []
  | x :: l' => insert_desc x (sort_desc l')
  end.

(** [desc a b]: [a] may stand before [b] in a descending list. *)
Definition desc (a b : string) : Prop := String.leb b a = true.

Definition defaults : list string :=
  ["models/gemini-1.5-pro"; "models/gemini-1.5-flash"].

Definition is_exp (m : string) : bool := contains "exp" m.
Definition is_pro (m : string) : bool := contains "pro" m && negb (contains "exp" m).
Definition is_flash (m : string) : bool := contains "flash" m && negb (contains "exp" m).

(** [discovery] is the outcome of enumerating [genai.list_models()]. *)
Definition get_best_models (discovery : result (list ModelInfo)) : list string :=
  try_except
    (listed <- discovery ;;
     let all_models :=
       sort_desc
         (map name
            (filter (fun m => in_str_list "generateContent"
                                (supported_generation_methods m)) listed)) in
     let exp := filter is_exp all_models in
     let pro := filter is_pro all_models in
     let flash := filter is_flash all_models in
     let final_list := (exp ++ pro ++ flash)%list in
     Ok (match final_list with
         | [] => defaults
         | _ => final_list
         end))
    defaults.

(* ================================================================= *)
(** ** 2. The prompt: [PROMPT_TEMPLATE] and [str.format] *)

(** [template.format] with keyword arguments [kw], for templates whose
    replacement fields are plain names: a doubled brace is a literal
    brace, [{key}] is replaced by [kw[key]].  The scanner is in one of
    four states. *)
Inductive fmt_state : Type :=
| InText                       (* ordinary text *)
| AfterOpen                    (* one opening brace read *)
| InField (key : string)       (* inside a field, [key] read so far *)
| AfterClose.                  (* one closing brace read *)

Definition snoc (s : string) (c : ascii) : string :=
  s ++ String c EmptyString.

Fixpoint format_from (st : fmt_state) (kw : dict string) (s : string)
  : result string :=
  match s with
  | EmptyString =>
      match st with
      | InText => Ok EmptyString
      | _ => Raise ValueError
      end
  | String c s' =>
      match st with
      | InText =>
          if Ascii.eqb c "{"%char then format_from AfterOpen kw s'
          else if Ascii.eqb c "}"%char then format_from AfterClose kw s'
          else r <- format_from InText kw s' ;; Ok (String c r)
      | AfterOpen =>
          if Ascii.eqb c "{"%char
          then r <- format_from InText kw s' ;; Ok (String c r)
          else if Ascii.eqb c "}"%char then Raise IndexError
          else format_from (InField (String c EmptyString)) kw s'
      | InField key =>
          if Ascii.eqb c "}"%char then
            match dict_lookup key kw with
            | Some v => r <- format_from InText kw s' ;; Ok (v ++ r)
            | None => Raise KeyError
            end
          else if Ascii.eqb c "{"%char then Raise ValueError
          else format_from (InField (snoc key c)) kw s'
      | AfterClose =>
          if Ascii.eqb c "}"%char
          then r <- format_from InText kw s' ;; Ok (String c r)
          else Raise ValueError
      end
  end.

Definition format (template : string) (kw : dict string) : result string :=
  format_from InText kw template.

(** The names of the replacement fields of a template, in order. *)
Fixpoint fields_from (st : fmt_state) (s : string) : list string :=
  match s with
  | EmptyString => []
  | String c s' =>
      match st with
      | InText =>
          if Ascii.eqb c "{"%char then fields_from AfterOpen s'
          else if Ascii.eqb c "}"%char then fields_from AfterClose s'
          else fields_from InText s'
      | AfterOpen =>
          if Ascii.eqb c "{"%char then fields_from InText s'
          else if Ascii.eqb c "}"%char then []
          else fields_from (InField (String c EmptyString)) s'
      | InField key =>
          if Ascii.eqb c "}"%char then key :: fields_from InText s'
          else if Ascii.eqb c "{"%char then []
          else fields_from (InField (snoc key c)) s'
      | AfterClose =>
          if Ascii.eqb c "}"%char then fields_from InText s' else []
      end
  end.

Definition fields_of (template : string) : list string :=
  fields_from InText template.

(** The template text of the script; [dq] stands where the text has a
    double quote. *)
Definition PROMPT_TEMPLATE : string :=
  String.concat dq
    ["
你是 bbb 專業分析師。請基於以下【絕對事實】補完分析報告。

【鎖定事實 (API Data)】- **嚴禁修改數值**：
- 股票：{name} ({stock_id})
- 現價：{price} ({change_pct})
- 歷史股價(供繪圖參考)：{chart_dump}

【你的任務 (需聯網搜尋)】：
1. **財務補完**：
   - 營收：若本月尚未公布，請預估並標記 `is_estimate: true`。
   - EPS：搜尋預估值，標記 `is_estimate: true`。
   - 估值：依據歷史股價(實線)計算合理 PE 倍數區間(虛線)。
2. **質性分析**：產業護城河、競爭者。
3. **技術判讀**：給出 30/180/360 天價格預測與策略。

請回傳 **純 JSON**，格式如下 (不要用 Markdown)：
{{
  "; "industry"; ": {{ "; "moat_status"; ": "; ".."; ", "; "position_map"; ": "; ".."; ", "; "competitors"; ": "; ".."; " }},
  "; "financials"; ": {{
    "; "eps_table"; ": [
       {{ "; "period"; ": "; "2024Q3"; ", "; "gross_margin"; ": "; ".."; ", "; "eps"; ": "; "事實"; ", "; "cumulative"; ": "; ".."; ", "; "is_estimate"; ": false }},
       {{ "; "period"; ": "; "2025Q1"; ", "; "gross_margin"; ": "; ".."; ", "; "eps"; ": "; "預估"; ", "; "cumulative"; ": "; ".."; ", "; "is_estimate"; ": true }}
    ],
    "; "revenue_trend"; ": [
       {{ "; "month"; ": "; "2024-11"; ", "; "revenue"; ": "; ".."; ", "; "mom"; ": "; ".."; ", "; "yoy"; ": "; ".."; ", "; "is_estimate"; ": false }}
    ],
    "; "valuation"; ": {{
        "; "pe_status"; ": "; ".."; ", "; "pb"; ": "; ".."; ", "; "roe"; ": "; ".."; ",
        "; "pe_river_data"; ": {{
            "; "dates"; ": [], "; "price"; ": [], "; "pe20"; ": [], "; "pe16"; ": [], "; "pe12"; ": [] 
        }}
    }}
  }},
  "; "technical"; ": {{
    "; "status"; ": "; ".."; ", "; "signal_light"; ": "; "red_flash/green_flash/stable"; ", 
    "; "analysis_text"; ": "; ".."; ",
    "; "predictions"; ": {{ "; "days30"; ": "; ".."; ", "; "days180"; ": "; ".."; ", "; "days360"; ": "; ".."; ", "; "entry_zone"; ": "; ".."; " }},
    "; "correction_c"; ": "; "0.XX"; ",
    "; "bollinger"; ": {{ "; "status"; ": "; ".."; ", "; "description"; ": "; ".."; " }}
  }},
  "; "news_events"; ": {{
    "; "news"; ": [ {{ "; "date"; ": "; "YYYY-MM-DD"; ", "; "title"; ": "; ".."; ", "; "type"; ": "; "positive/neutral/negative"; ", "; "is_new"; ": true }} ],
    "; "calendar"; ": [ {{ "; "date"; ": "; "YYYY-MM-DD"; ", "; "event"; ": "; ".."; " }} ]
  }},
  "; "dividend"; ": {{ "; "yield"; ": "; ".."; ", "; "history_roi"; ": "; ".."; ", "; "future_roi"; ": "; ".."; " }},
  "; "memo"; ": "; EmptyString; "
}}
"].

(** Zero-padded decimal of width at least [w]. *)
Fixpoint zeros (n : nat) : string :=
  match n with
  | O => EmptyString
  | S k => String "0"%char (zeros k)
  end.

Definition zpad (w : nat) (n : N) : string :=
  let d := string_of_N n in zeros (w - String.length d) ++ d.

(** [t.strftime('%Y-%m')] *)
Definition strftime_Ym (t : Timestamp) : string :=
  zpad 4 (ts_year t) ++ "-" ++ zpad 2 (ts_month t).

(** [l[-n:]] for [n > 0] *)
Definition tail {A} (n : nat) (l : list A) : list A :=
  skipn (List.length l - n) l.

(** [l[:n]] *)
Definition head {A} (n : nat) (l : list A) : list A := firstn n l.

Section WithLibrary.
Context {L : PyLib}.

(** A float as [json.dumps] writes it: its [repr], and NaN and the
    infinities in the spelling of JavaScript. *)
Definition dumps_float (x : spec_float) : string :=
  match x with
  | S754_nan => "NaN"
  | S754_infinity false => "Infinity"
  | S754_infinity true => "-Infinity"
  | _ => float_repr x
  end.

(** [json.dumps] of the list of [{d: label, p: price}] rows handed to the
    model; the labels come from [strftime_Ym] and need no escaping. *)
Definition dumps_row (r : string * spec_float) : string :=
  "{" ++ dq ++ "d" ++ dq ++ ": " ++ dq ++ fst r ++ dq ++ ", "
      ++ dq ++ "p" ++ dq ++ ": " ++ dumps_float (snd r) ++ "}".

Definition dumps_chart (rows : list (string * spec_float)) : string :=
  "[" ++ String.concat ", " (map dumps_row rows) ++ "]".

(* ----------------------------------------------------------------- *)
(** *** Outcomes of the calls that leave the process *)

(** A value read from [ticker.info]: [None], a float or a string. *)
Inductive scalar : Type :=
| SNone
| SNum (x : spec_float)
| SStr (s : string).

(** [str(v)] *)
Definition py_str (v : scalar) : string :=
  match v with
  | SNone => "None"
  | SNum x => float_repr x
  | SStr s => s
  end.

Definition json_of_scalar (v : scalar) : json :=
  match v with
  | SNone => JNull
  | SNum x => JFloat x
  | SStr s => JStr s
  end.

(** Everything the outside world answers while one ticker is processed.
    A price is [option number]: [None] is Python's [None]. *)
Record Outcomes : Type := {
  (* [yf.Ticker(symbol)], the handle itself *)
  ticker_object : result unit;
  (* [ticker.fast_info]; its entries are computed when read *)
  fast_info : result (dict (result (option number)));
  (* closing prices of [ticker.history(period=5d)], oldest first *)
  history_5d : result (list spec_float);
  (* [ticker.news]; per item, the title and the formatted date *)
  news : result (list (result (string * string)));
  (* closing prices of [ticker.history(period=1y)] *)
  history_1y : result Series;
  (* [ticker.info] when the display name is read *)
  info_at_name : result (dict scalar);
  (* [ticker.info] when the price-to-book ratio is read *)
  info_at_pb : result (dict scalar);
  (* [GenerativeModel(m).generate_content(prompt).text] for the attempt
     at position [i] of the model list *)
  generate_content : nat -> string -> string -> result string;
  (* [datetime.now().strftime(...)] *)
  now : string
}.

(** [x == 0] for a price; [None == 0] is false. *)
Definition is_zero (x : option number) : bool :=
  match x with
  | Some n => float_is_zero (value n)
  | None => false
  end.

(** The literal [0] of the script.  It is only ever compared with zero
    and tested for truth, where the integer and the float agree. *)
Definition literal_0 : number := PyFloat (S754_zero false).

(** [fast.get(key, 0)] *)
Definition fast_get (key : string) (fast : dict (result (option number)))
  : result (option number) :=
  dict_get key (Ok (Some literal_0)) fast.

(** [f"{(((price - prev)/prev)*100):+.2f}%"], for a [prev] other than
    zero. *)
Definition change_percent (price prev : spec_float) : string :=
  format_signed_2f (fmul (fdiv (fsub price prev) prev) float_100) ++ "%".

(** Stage A, quote, the reads: the value of [price] when the reads end,
    and the value of [prev], or the exception that cut the reads short. *)
Definition read_quote (o : Outcomes)
  : option number * result (option number) :=
  let price0 : option number := Some literal_0 in
  match fast_info o with
  | Raise e => (price0, Raise e)
  | Ok fast =>
      match fast_get "last_price" fast with
      | Raise e => (price0, Raise e)
      | Ok price =>
          match fast_get "previous_close" fast with
          | Raise e => (price, Raise e)
          | Ok prev =>
              (* the fallback: last two closes of the five-day window *)
              if is_zero price then
                match history_5d o with
                | Raise e => (price, Raise e)
                | Ok h =>
                    match rev h with
                    | [] => (price, Ok prev)
                    | last :: before =>
                        match before with
                        | [] => (Some (NumPy last), Raise IndexError)
                        | second :: _ =>
                            (Some (NumPy last), Ok (Some (NumPy second)))
                        end
                    end
                end
              else (price, Ok prev)
          end
      end
  end.

(** Stage A as a whole: [price] and [change_pct] when the guarded block
    is left, normally or by an exception. *)
Definition collect_quote (o : Outcomes) : option number * string :=
  let change_pct0 := "0%" in
  let '(price, reads) := read_quote o in
  match reads with
  | Raise _ => (price, change_pct0)
  | Ok prev =>
      match price, prev with
      | Some p, Some q =>
          (* [if price and prev]: neither is zero; NaN passes *)
          if negb (float_is_zero (value p)) && negb (float_is_zero (value q))
          then (price, change_percent (value p) (value q))
          else (price, change_pct0)
      | _, _ => (price, change_pct0)
      end
  end.

(** Stage B, news: the lines gathered before the first exception. *)
Fixpoint news_lines (items : list (result (string * string))) : string :=
  match items with
  | [] => EmptyString
  | Raise _ :: _ => EmptyString
  | Ok (t, d) :: rest =>
      "- " ++ d ++ ": " ++ t ++ String "010"%char EmptyString
           ++ news_lines rest
  end.

Definition collect_news (o : Outcomes) : string :=
  match news o with
  | Raise _ => EmptyString
  | Ok items => news_lines (head 3 items)
  end.

(** Stage C, chart: month labels and rounded month-end prices. *)
Definition chart_of (hist : Series) : list string * list spec_float :=
  match hist with
  | [] => ([], [])
  | _ =>
      let res := tail 12 (resample_ME_last hist) in
      (map (fun r => strftime_Ym (fst r)) res,
       map (fun r => round2 (snd r)) res)
  end.

(** [f"{price:.2f}"]; [None] has no such format. *)
Definition format_price (price : option number) : result string :=
  match price with
  | Some p => Ok (format_2f (value p))
  | None => Raise TypeError
  end.

(** Stage D, prompt. *)
Definition compose_prompt (name stock_id price change_pct chart_dump
                           news_summary : string) : result string :=
  format PROMPT_TEMPLATE
    [("name", name); ("stock_id", stock_id); ("price", price);
     ("change_pct", change_pct); ("chart_dump", chart_dump);
     ("news_summary", news_summary)].
Arguments compose_prompt : simpl never.

(** [resp.text.replace(fence json, empty).replace(fence, empty).strip()] *)
Definition strip_fences (text : string) : string :=
  str_strip
    (replace "```" EmptyString (replace "```json" EmptyString text)).

(** What the failover loop leaves behind; [attempts] lists the models
    that were invoked, in order (it is not a variable of the script). *)
Record Failover : Type := {
  ai_res : json;
  model_used : string;
  attempts : list string
}.

(** One turn of the loop: invoke, strip the fences, parse. *)
Definition attempt (gen : nat -> string -> string -> result string)
                   (prompt : string) (i : nat) (m : string) : result json :=
  text <- gen i m prompt ;;
  json_loads (strip_fences text).

(** Stage D, the loop over [MODEL_PRIORITY], from position [i]. *)
Fixpoint failover (gen : nat -> string -> string -> result string)
                  (prompt : string) (i : nat) (models : list string)
  : Failover :=
  match models with
  | [] => {| ai_res := JObj []; model_used := "N/A"; attempts := [] |}
  | m :: rest =>
      match attempt gen prompt i m with
      | Ok parsed =>
          {| ai_res := parsed;
             model_used := replace "models/" EmptyString m;
             attempts := [m] |}
      | Raise _ =>
          let r := failover gen prompt (S i) rest in
          {| ai_res := ai_res r;
             model_used := model_used r;
             attempts := m :: attempts r |}
      end
  end.

(** Truthiness of a JSON value. *)
Definition json_truthy (v : json) : bool :=
  match v with
  | JNull => false
  | JBool b => b
  | JInt z => negb (Z.eqb z 0)
  | JFloat x => negb (float_is_zero x)
  | JStr s => str_truthy s
  | JArr l => match l with [] => false | _ => true end
  | JObj d => match d with [] => false | _ => true end
  end.

(** [old_data.get(key, dflt) if old_data else dflt] *)
Definition carried (key : string) (dflt : json) (old_data : option json)
  : result json :=
  match old_data with
  | Some old => if json_truthy old then json_get key dflt old else Ok dflt
  | None => Ok dflt
  end.

(** [f"{(price-(price/(1+float(change_pct.strip('%'))/100))):+.2f}"]:
    the divisor is a Python float; when it is zero the division raises
    for a Python float [price] and gives an infinity for a
    [numpy.float64]. *)
Definition derived_change (price : option number) (change_pct : string)
  : result string :=
  match price with
  | None => Raise TypeError
  | Some p =>
      pct <- float_of_string (strip_percent change_pct) ;;
      quotient <- truediv p (fadd float_1 (fdiv pct float_100)) ;;
      Ok (format_signed_2f (fsub (value p) quotient))
  end.

Definition new_category : string := "新加入".

(** Stage E, merge: the record built from the facts, the model's answer
    and the previous record. *)
Definition merge (o : Outcomes) (stock_id : string) (name : json)
                 (old_data : option json) (price : option number)
                 (change_pct : string) (chart_dates : list string)
                 (chart_prices : list spec_float) (ai : Failover)
  : result json :=
  fin <- json_get "financials" (JObj []) (ai_res ai) ;;
  val <- json_get "valuation" (JObj []) fin ;;
  riv <- json_get "pe_river_data" (JObj []) val ;;
  pe20 <- json_get "pe20" (JArr []) riv ;;
  pe16 <- json_get "pe16" (JArr []) riv ;;
  pe12 <- json_get "pe12" (JArr []) riv ;;
  let final_river :=
    JObj [("dates", JArr (map JStr chart_dates));
          ("price", JArr (map JFloat chart_prices));
          ("pe20", pe20); ("pe16", pe16); ("pe12", pe12)] in
  category <- carried "category" (JStr new_category) old_data ;;
  memo <- carried "memo" (JStr EmptyString) old_data ;;
  price_s <- format_price price ;;
  change <- derived_change price change_pct ;;
  industry <- json_get "industry" (JObj []) (ai_res ai) ;;
  news_events <- json_get "news_events"
                   (JObj [("news", JArr []); ("calendar", JArr [])])
                   (ai_res ai) ;;
  eps_table <- json_get "eps_table" (JArr []) fin ;;
  revenue_trend <- json_get "revenue_trend" (JArr []) fin ;;
  pe_status <- json_get "pe_status" (JStr "-") val ;;
  info <- info_at_pb o ;;
  let pb := py_str (dict_get "priceToBook" (SStr "-") info) in
  roe <- json_get "roe" (JStr "-") val ;;
  technical <- json_get "technical" (JObj [("signal_light", JStr "stable")])
                 (ai_res ai) ;;
  dividend <- json_get "dividend" (JObj []) (ai_res ai) ;;
  Ok (JObj
        [("id", JStr stock_id);
         ("name", name);
         ("category", category);
         ("lastUpdated", JStr (now o));
         ("ai_model", JStr (model_used ai));
         ("memo", memo);
         ("basicInfo",
          JObj [("price", JStr price_s);
                ("change", JStr change);
                ("changePercent", JStr change_pct)]);
         ("industry", industry);
         ("news_events", news_events);
         ("financials",
          JObj [("eps_table", eps_table);
                ("revenue_trend", revenue_trend);
                ("valuation",
                 JObj [("pe_status", pe_status);
                       ("pb", JStr pb);
                       ("roe", roe);
                       ("pe_river_data", final_river)])]);
         ("technical", technical);
         ("dividend", dividend)]).

(** The band [k] of the river chart as the model's answer has it, the
    empty list when any key on the way is absent. *)
Definition ai_band (k : string) (answer : json) : json :=
  match json_path ["financials"; "valuation"; "pe_river_data"; k] answer with
  | Some v => v
  | None => JArr []
  end.

(** The same outcomes with another answer of the news query. *)
Definition with_news (nw : result (list (result (string * string))))
                     (o : Outcomes) : Outcomes :=
  {| ticker_object := ticker_object o;
     fast_info := fast_info o;
     history_5d := history_5d o;
     news := nw;
     history_1y := history_1y o;
     info_at_name := info_at_name o;
     info_at_pb := info_at_pb o;
     generate_content := generate_content o;
     now := now o |}.

(** The process-wide settings: the key from the environment and the
    model list computed at start-up. *)
Record Settings : Type := {
  GEMINI_API_KEY : option string;
  MODEL_PRIORITY : list string
}.

Definition key_configured (cfg : Settings) : bool :=
  match GEMINI_API_KEY cfg with
  | Some k => str_truthy k
  | None => false
  end.

(** Stage D as a whole: the display name bound by the branch (if it ran)
    and the loop's result. *)
Definition ask_models (cfg : Settings) (o : Outcomes) (stock_id : string)
                      (price : option number) (change_pct : string)
                      (chart : list string * list spec_float)
                      (news_summary : string)
  : result (json * Failover) :=
  if key_configured cfg then
    info <- info_at_name o ;;
    let name := dict_get "longName" (SStr stock_id) info in
    price_s <- format_price price ;;
    prompt <- compose_prompt (py_str name) stock_id price_s change_pct
                (dumps_chart (combine (fst chart) (snd chart)))
                news_summary ;;
    Ok (json_of_scalar name,
        failover (generate_content o) prompt 0 (MODEL_PRIORITY cfg))
  else
    Ok (JStr stock_id,
        {| ai_res := JObj []; model_used := "N/A"; attempts := [] |}).

(** The body of the outer [try] of [get_stock_data]; [Ok None] is the
    early [return None]. *)
Definition get_stock_data_body (cfg : Settings) (o : Outcomes)
                               (stock_id : string) (old_data : option json)
  : result (option json) :=
  _ <- ticker_object o ;;
  let '(price, change_pct) := collect_quote o in
  if is_zero price then Ok None
  else
    let news_summary := collect_news o in
    hist <- history_1y o ;;
    let chart := chart_of hist in
    '(name, ai) <- ask_models cfg o stock_id price change_pct chart
                     news_summary ;;
    record <- merge o stock_id name old_data price change_pct
                (fst chart) (snd chart) ai ;;
    Ok (Some record).

(** [get_stock_data(target_id, old_data)]: [None] where the script
    returns [None]. *)
Definition get_stock_data (cfg : Settings) (o : Outcomes)
                          (target_id : string) (old_data : option json)
  : option json :=
  let stock_id := replace ".TW" EmptyString target_id in
  try_except (get_stock_data_body cfg o stock_id old_data) None.

(* ----------------------------------------------------------------- *)
(** *** The run: [__main__] *)

(** What the process finds when it starts, and what the outside world
    answers for each target id. *)
Record World : Type := {
  (* enumeration of [genai.list_models()] *)
  discovery : result (list ModelInfo);
  (* [os.environ.get(GEMINI_API_KEY)] *)
  env_api_key : option string;
  (* [data.json]: absent, unreadable, or its parsed content *)
  data_json : option (result json);
  (* the value of [--add] *)
  cli_add : option string;
  (* the answers while the target id is processed *)
  ticker_outcomes : string -> Outcomes
}.

Definition settings_of (w : World) : Settings :=
  {| GEMINI_API_KEY := env_api_key w;
     MODEL_PRIORITY := get_best_models (discovery w) |}.

(** [get_current_list()] *)
Definition get_current_list (w : World) : list json :=
  match data_json w with
  | Some (Ok (JArr d)) => d
  | _ => []
  end.

(** [item['id']], with the record it indexes.  A record whose id is not
    a string stops the run before anything is written (the id is
    unhashable, or [target_id.replace] fails outside every handler). *)
Definition item_id (item : json) : result (string * dict json) :=
  match item with
  | JObj d =>
      match dict_lookup "id" d with
      | Some (JStr i) => Ok (i, d)
      | Some _ => Raise AttributeError
      | None => Raise KeyError
      end
  | _ => Raise TypeError
  end.

(** [{item['id']: item for item in current}] *)
Fixpoint build_old_map (current : list json) (acc : dict (dict json))
  : result (dict (dict json)) :=
  match current with
  | [] => Ok acc
  | item :: rest =>
      '(i, d) <- item_id item ;;
      build_old_map rest (dict_set i d acc)
  end.

(** The stub stored for an added id. *)
Definition added_stub : dict json := [("category", JStr new_category)].

(** [targets] and [old_map] after the [--add] handling. *)
Definition add_target (add : option string) (old_map : dict (dict json))
  : list string * dict (dict json) :=
  let targets := dict_keys old_map in
  match add with
  | Some a =>
      if str_truthy a then
        let nid := str_upper (str_strip a) in
        if in_str_list nid targets then (targets, old_map)
        else (nid :: targets, dict_set nid added_stub old_map)
      else (targets, old_map)
  | None => (targets, old_map)
  end.

(** One turn of the loop over [targets]: what is appended to [final]. *)
Definition process_target (w : World) (old_map : dict (dict json))
                          (sid : string) : list json :=
  let old := option_map JObj (dict_lookup sid old_map) in
  let res := get_stock_data (settings_of w) (ticker_outcomes w sid) sid old in
  match res with
  | Some r =>
      if json_truthy r then [r]
      else
        match dict_lookup sid old_map with
        | Some prev => if dict_mem "name" prev then [JObj prev] else []
        | None => []
        end
  | None =>
      match dict_lookup sid old_map with
      | Some prev => if dict_mem "name" prev then [JObj prev] else []
      | None => []
      end
  end.

(** The loop, with [final] as accumulator. *)
Definition run_loop (w : World) (old_map : dict (dict json))
                    (targets : list string) : list json :=
  fold_left (fun final sid => (final ++ process_target w old_map sid)%list)
            targets [].

(** The target order of a run. *)
Definition targets_of (w : World) : result (list string) :=
  old_map <- build_old_map (get_current_list w) [] ;;
  Ok (fst (add_target (cli_add w) old_map)).

(** The list handed to [json.dump]; [Raise] if the run stops before. *)
Definition main (w : World) : result (list json) :=
  old_map <- build_old_map (get_current_list w) [] ;;
  let '(targets, old_map) := add_target (cli_add w) old_map in
  Ok (run_loop w old_map targets).

End WithLibrary.

(** [list(v.keys())] at the end of a path, when there is an object. *)
Definition keys_at (ks : list string) (v : json) : option (list string) :=
  match json_path ks v with
  | Some (JObj d) => Some (dict_keys d)
  | _ => None
  end.

(** The literal texts of a template, between its replacement fields and
    with doubled braces undone; [cur] is the text gathered so far. *)
Fixpoint literals_from (st : fmt_state) (cur : string) (s : string)
  : list string :=
  match s with
  | EmptyString => [cur]
  | String c s' =>
      match st with
      | InText =>
          if Ascii.eqb c "{"%char then literals_from AfterOpen cur s'
          else if Ascii.eqb c "}"%char then literals_from AfterClose cur s'
          else literals_from InText (snoc cur c) s'
      | AfterOpen =>
          if Ascii.eqb c "{"%char then literals_from InText (snoc cur c) s'
          else if Ascii.eqb c "}"%char then [cur]
          else literals_from (InField (String c EmptyString)) cur s'
      | InField key =>
          if Ascii.eqb c "}"%char
          then cur :: literals_from InText EmptyString s'
          else if Ascii.eqb c "{"%char then [cur]
          else literals_from (InField (snoc key c)) cur s'
      | AfterClose =>
          if Ascii.eqb c "}"%char then literals_from InText (snoc cur c) s'
          else [cur]
      end
  end.

Definition literals_of (template : string) : list string :=
  literals_from InText EmptyString template.

(* ================================================================= *)
(** ** Concrete library, outcomes and worlds used in the examples *)

(** Month-end resampling on a series without gaps: the last row of each
    run of rows of one month. *)
Definition same_month (a b : Timestamp) : bool :=
  N.eqb (ts_year a) (ts_year b) && N.eqb (ts_month a) (ts_month b).

Fixpoint ex_resample (s : Series) : Series :=
  match s with
  | [] => []
  | r :: s' =>
      match s' with
      | [] => [r]
      | r' :: _ =>
          if same_month (fst r) (fst r') then ex_resample s'
          else r :: ex_resample s'
      end
  end.

(** [repr] for the floats of the examples, which are roundings to two
    decimals: trailing zeros dropped, one decimal kept. *)
Definition ex_float_repr (x : spec_float) : string :=
  match x with
  | S754_nan => "nan"
  | S754_infinity s => sign_text false s ++ "inf"
  | S754_zero s => sign_text false s ++ "0.0"
  | S754_finite s m e =>
      let a := Z.to_N (Z.abs (hundredths (exact_abs m e))) in
      sign_text false s ++
      string_of_N (a / 100)%N ++ "." ++
      String (digit_char ((a mod 100) / 10)%N)
        (if N.eqb (a mod 10) 0 then EmptyString
         else String (digit_char (a mod 10)%N) EmptyString)
  end.

(** [s.strip()] and [s.upper()] for the texts of the examples, which are
    ASCII: white space is TAB..CR, FS..US and the blank, and the letters
    a..z have capitals. *)
Definition is_space (c : ascii) : bool :=
  let n := nat_of_ascii c in
  (Nat.leb 9 n && Nat.leb n 13) || (Nat.leb 28 n && Nat.leb n 32).

Definition ex_strip (s : string) : string := strip_by is_space s.

Definition upper_ascii (c : ascii) : ascii :=
  let n := nat_of_ascii c in
  if Nat.leb 97 n && Nat.leb n 122 then ascii_of_nat (n - 32) else c.

Fixpoint ex_upper (s : string) : string :=
  match s with
  | EmptyString => EmptyString
  | String c s' => String (upper_ascii c) (ex_upper s')
  end.

(** The float written [n / 10^k] in decimal. *)
Definition dec (n : N) (k : nat) : spec_float := float_of_decimal (n, k).

(** An answer that brings its own chart arrays, category and memo. *)
Definition ex_answer_text : string :=
  String.concat dq
    ["{"; "financials"; ": {"; "valuation"; ": {"; "pe_river_data";
     ": {"; "dates"; ": ["; "1999-01"; "], "; "price"; ": [1.0], ";
     "pe20"; ": [700.0]}}}, "; "category"; ": "; "from the model"; ", ";
     "memo"; ": "; "from the model"; "}"].

Definition ex_answer : json :=
  JObj [("financials",
         JObj [("valuation",
                JObj [("pe_river_data",
                       JObj [("dates", JArr [JStr "1999-01"]);
                             ("price", JArr [JFloat (dec 1 0)]);
                             ("pe20", JArr [JFloat (dec 700 0)])])])]);
        ("category", JStr "from the model");
        ("memo", JStr "from the model")].

(** An answer with every section the merge copies. *)
Definition ex_full_answer_text : string :=
  String.concat dq
    ["{"; "industry"; ": {"; "moat_status"; ": "; "wide"; "}, ";
     "news_events"; ": {"; "news"; ": [{"; "title"; ": "; "results";
     "}], "; "calendar"; ": []}, ";
     "technical"; ": {"; "signal_light"; ": "; "green_flash"; "}, ";
     "dividend"; ": {"; "yield"; ": "; "2%"; "}, ";
     "financials"; ": {"; "eps_table"; ": [{"; "period"; ": "; "2025Q1";
     "}], "; "revenue_trend"; ": [{"; "month"; ": "; "2025-11"; "}], ";
     "valuation"; ": {"; "pe_status"; ": "; "fair"; ", "; "roe"; ": ";
     "28%"; ", "; "pe_river_data"; ": {"; "pe20"; ": [700.0]}}}}"].

Definition ex_full_answer : json :=
  JObj [("industry", JObj [("moat_status", JStr "wide")]);
        ("news_events",
         JObj [("news", JArr [JObj [("title", JStr "results")]]);
               ("calendar", JArr [])]);
        ("technical", JObj [("signal_light", JStr "green_flash")]);
        ("dividend", JObj [("yield", JStr "2%")]);
        ("financials",
         JObj [("eps_table", JArr [JObj [("period", JStr "2025Q1")]]);
               ("revenue_trend", JArr [JObj [("month", JStr "2025-11")]]);
               ("valuation",
                JObj [("pe_status", JStr "fair");
                      ("roe", JStr "28%");
                      ("pe_river_data",
                       JObj [("pe20", JArr [JFloat (dec 700 0)])])])])].

(** A parser that knows four texts. *)
Definition ex_json_loads (s : string) : result json :=
  if String.eqb s "{}" then Ok (JObj [])
  else if String.eqb s "[]" then Ok (JArr [])
  else if String.eqb s ex_answer_text then Ok ex_answer
  else if String.eqb s ex_full_answer_text then Ok ex_full_answer
  else Raise ValueError.

#[local] Instance ex_lib : PyLib :=
  {| json_loads := ex_json_loads;
     resample_ME_last := ex_resample;
     float_repr := ex_float_repr;
     str_strip := ex_strip;
     str_upper := ex_upper |}.

Definition ex_day (y m d : N) : Timestamp :=
  {| ts_year := y; ts_month := m; ts_day := d |}.

(** A ticker quoted at 550.00 after a close of 540.00; every model
    answers with [text]. *)
Definition ex_outcomes (text : result string) : Outcomes :=
  {| ticker_object := Ok tt;
     fast_info := Ok [("last_price", Ok (Some (PyFloat (dec 550 0))));
                      ("previous_close", Ok (Some (PyFloat (dec 540 0))))];
     history_5d := Ok [];
     news := Ok [Ok ("Quarterly results", "2026-01-02")];
     history_1y := Ok [(ex_day 2025 11 27, dec 5201 1);
                       (ex_day 2025 11 28, dec 5305 1);
                       (ex_day 2025 12 30, dec 54321 2);
                       (ex_day 2025 12 31, dec 543217 3)];
     info_at_name := Ok [("longName", SStr "TSMC")];
     info_at_pb := Ok [("longName", SStr "TSMC");
                       ("priceToBook", SNum (dec 52 1))];
     generate_content := fun _ _ _ => text;
     now := "2026-01-05 09:00" |}.

(** The same ticker when the models are sent the prompt of this run (any
    other prompt is refused): the pro model answers in prose, every other
    model with [ex_full_answer_text] in a json code fence. *)
Definition ex_outcomes_failover : Outcomes :=
  {| ticker_object := Ok tt;
     fast_info := fast_info (ex_outcomes (Raise ProviderError));
     history_5d := Ok [];
     news := news (ex_outcomes (Raise ProviderError));
     history_1y := history_1y (ex_outcomes (Raise ProviderError));
     info_at_name := info_at_name (ex_outcomes (Raise ProviderError));
     info_at_pb := info_at_pb (ex_outcomes (Raise ProviderError));
     generate_content := fun _ m prompt =>
       if contains "TSMC (2330)" prompt
          && contains "550.00 (+1.85%)" prompt
       then
         if String.eqb m "models/gemini-1.5-pro"
         then Ok "I cannot answer in JSON."
         else Ok ("```json" ++ String "010"%char
                    (ex_full_answer_text ++ String "010"%char "```"))
       else Raise ProviderError;
     now := "2026-01-05 09:00" |}.


(** A ticker for which no price can be had. *)
Definition ex_outcomes_no_price : Outcomes :=
  {| ticker_object := Ok tt;
     fast_info := Raise ProviderError;
     history_5d := Raise ProviderError;
     news := Raise ProviderError;
     history_1y := Raise ProviderError;
     info_at_name := Raise ProviderError;
     info_at_pb := Raise ProviderError;
     generate_content := fun _ _ _ => Raise ProviderError;
     now := "2026-01-05 09:00" |}.

Definition ex_settings : Settings :=
  {| GEMINI_API_KEY := Some "key"; MODEL_PRIORITY := defaults |}.

Definition ex_previous : json :=
  JObj [("id", JStr "2330"); ("name", JStr "TSMC");
        ("category", JStr "core holding");
        ("memo", JStr "watch for earnings")].

(** The record merged for 2330.TW when the first model answers with
    [ex_answer_text] and the previous record is [ex_previous]. *)
Definition ex_merged : json :=
  Eval vm_compute in
    match get_stock_data ex_settings (ex_outcomes (Ok ex_answer_text))
                         "2330.TW" (Some ex_previous) with
    | Some r => r
    | None => JNull
    end.

(** The prompt composed for 2330.TW from [ex_outcomes_failover], and the
    record merged for it when there is no previous record. *)
Definition ex_prompt : string :=
  Eval vm_compute in
    match compose_prompt "TSMC" "2330" "550.00" "+1.85%"
            (dumps_chart [("2025-11", dec 5305 1); ("2025-12", dec 54322 2)])
            EmptyString with
    | Ok t => t
    | Raise _ => EmptyString
    end.

Definition ex_merged_failover : json :=
  Eval vm_compute in
    match get_stock_data ex_settings ex_outcomes_failover "2330.TW" None with
    | Some r => r
    | None => JNull
    end.

Definition ex_record (i : string) : json :=
  JObj [("id", JStr i); ("name", JStr i);
        ("category", JStr "core holding"); ("memo", JStr "kept")].

(** Previous ids A, B, C; [--add d]; no price for any ticker. *)
Definition ex_world : World :=
  {| discovery := Raise ProviderError;
     env_api_key := None;
     data_json := Some (Ok (JArr [ex_record "A"; ex_record "B";
                                  ex_record "C"]));
     cli_add := Some " d ";
     ticker_outcomes := fun _ => ex_outcomes_no_price |}.

(** Previous ids A and B, [--add d]; only B has a price. *)
Definition ex_world_mixed : World :=
  {| discovery := Raise ProviderError;
     env_api_key := None;
     data_json := Some (Ok (JArr [ex_record "A"; ex_record "B"]));
     cli_add := Some "d";
     ticker_outcomes := fun sid =>
       if String.eqb sid "B" then ex_outcomes (Raise ProviderError)
       else ex_outcomes_no_price |}.

(** Previous ids A, B, C; [--add d]; every ticker is quoted. *)
Definition ex_world_quoted : World :=
  {| discovery := Raise ProviderError;
     env_api_key := None;
     data_json := Some (Ok (JArr [ex_record "A"; ex_record "B";
                                  ex_record "C"]));
     cli_add := Some " d ";
     ticker_outcomes := fun _ => ex_outcomes (Raise ProviderError) |}.




(** The map built from the previous list of [ex_world]. *)
Definition ex_old_map : dict (dict json) :=
  Eval vm_compute in
    match build_old_map (get_current_list ex_world) [] with
    | Ok m => m
    | Raise _ => []
    end.

(** The quote snapshot cannot be read although the five-day window has
    two closes. *)
Definition ex_outcomes_fast_raises : Outcomes :=
  {| ticker_object := Ok tt;
     fast_info := Raise ProviderError;
     history_5d := Ok [dec 540 0; dec 550 0];
     news := Ok [];
     history_1y := Ok [];
     info_at_name := Ok [];
     info_at_pb := Ok [];
     generate_content := fun _ _ _ => Raise ProviderError;
     now := "2026-01-05 09:00" |}.

(** The ticker of [ex_outcomes] with another five-day window. *)
Definition ex_outcomes_other_window : Outcomes :=
  {| ticker_object := Ok tt;
     fast_info := fast_info (ex_outcomes (Raise ProviderError));
     history_5d := Ok [dec 100 0; dec 200 0];
     news := Ok [];
     history_1y := Ok [];
     info_at_name := Ok [];
     info_at_pb := Ok [];
     generate_content := fun _ _ _ => Raise ProviderError;
     now := "2026-01-05 09:00" |}.

(** No last price in the snapshot; the five-day window ends with a row
    that has no close yet. *)
Definition ex_outcomes_nan_close : Outcomes :=
  {| ticker_object := Ok tt;
     fast_info := Ok [("last_price", Ok (Some (PyFloat (S754_zero false))));
                      ("previous_close", Ok (Some (PyFloat (dec 540 0))))];
     history_5d := Ok [dec 540 0; S754_nan];
     news := Ok [];
     history_1y := Ok [];
     info_at_name := Ok [];
     info_at_pb := Ok [];
     generate_content := fun _ _ _ => Raise ProviderError;
     now := "2026-01-05 09:00" |}.

(** No last price in the snapshot; the five-day window closes at 0.004
    after a close of 100. *)
Definition ex_outcomes_collapse_window : Outcomes :=
  {| ticker_object := Ok tt;
     fast_info := Ok [];
     history_5d := Ok [dec 100 0; dec 4 3];
     news := Ok [];
     history_1y := Ok [];
     info_at_name := Ok [];
     info_at_pb := Ok [];
     generate_content := fun _ _ _ => Raise ProviderError;
     now := "2026-01-05 09:00" |}.

(** A price of 0.001 after a close of 100. *)
Definition ex_outcomes_collapse : Outcomes :=
  {| ticker_object := Ok tt;
     fast_info := Ok [("last_price", Ok (Some (PyFloat (dec 1 3))));
                      ("previous_close", Ok (Some (PyFloat (dec 100 0))))];
     history_5d := Ok [];
     news := Ok [];
     history_1y := Ok [];
     info_at_name := Ok [];
     info_at_pb := Ok [];
     generate_content := fun _ _ _ => Raise ProviderError;
     now := "2026-01-05 09:00" |}.

(* ================================================================= *)
(** ** The definitions at work *)

Example replace_suffix : replace ".TW" EmptyString "2330.TW" = "2330".
Proof. reflexivity. Qed.

Example replace_marker :
  replace "models/" EmptyString "models/gemini-1.5-pro" = "gemini-1.5-pro".
Proof. reflexivity. Qed.

Example strip_fences_fenced :
  strip_fences ("```json" ++ String "010"%char "{}"
                          ++ String "010"%char "```") = "{}".
Proof. reflexivity. Qed.

Example upper_strip : str_upper (str_strip "  2330.tw ") = "2330.TW".
Proof. reflexivity. Qed.

Example first_occurrences_repeated :
  first_occurrences ["A"; "B"; "A"; "C"; "B"] = ["A"; "B"; "C"].
Proof. reflexivity. Qed.

(** The float nearest to 1.85 is 8331659310635418 * 2^-52, a little above
    1.85; the float nearest to 0.1 is 7205759403792794 * 2^-56. *)
Example float_of_decimal_185 :
  dec 185 2 = S754_finite false 8331659310635418 (-52).
Proof. vm_compute. reflexivity. Qed.

Example float_of_decimal_tenth :
  dec 1 1 = S754_finite false 7205759403792794 (-56).
Proof. vm_compute. reflexivity. Qed.

Example float_of_string_signed :
  float_of_string "-0.00" = Ok (S754_zero true) /\
  float_of_string "+1.85" = Ok (dec 185 2) /\
  float_of_string "0" = Ok (S754_zero false) /\
  float_of_string "+nan" = Ok S754_nan /\
  float_of_string "-inf" = Ok (S754_infinity true).
Proof. repeat split; vm_compute; reflexivity. Qed.

Example format_signed_small_negative :
  format_signed_2f (SFopp (dec 1 3)) = "-0.00".
Proof. vm_compute. reflexivity. Qed.

(** 2.675 is stored a little below, 1.005 a little below, 0.125 exactly
    (a tie, which goes to the even digit). *)
Example format_is_exact :
  format_2f (dec 2675 3) = "2.67" /\
  format_2f (dec 1005 3) = "1.00" /\
  format_2f (dec 125 3) = "0.12" /\
  format_2f (dec 375 3) = "0.38".
Proof. repeat split; vm_compute; reflexivity. Qed.

Example round2_is_a_float :
  round2 (dec 543217 3) = dec 54322 2 /\
  round2 (SFopp (dec 1 3)) = S754_zero true /\
  round2 S754_nan = S754_nan.
Proof. repeat split; vm_compute; reflexivity. Qed.

(** Floats, not rationals: a rise of 1 on 20000 is 0.005 per cent in the
    rationals, a tie that would print as +0.00; the float quotient is a
    little above and prints as +0.01.  A fall of nothing on a negative
    close is a negative zero. *)
Example change_percent_of_floats :
  change_percent (dec 550 0) (dec 540 0) = "+1.85%" /\
  change_percent (dec 20001 0) (dec 20000 0) = "+0.01%" /\
  change_percent (SFopp (dec 5 0)) (SFopp (dec 5 0)) = "-0.00%" /\
  change_percent S754_nan (dec 540 0) = "+nan%".
Proof. repeat split; vm_compute; reflexivity. Qed.

Example strftime_Ym_march : strftime_Ym (ex_day 2025 3 31) = "2025-03".
Proof. reflexivity. Qed.

Example format_escapes : format "a{{b}}{x}c" [("x", "X")] = Ok "a{b}Xc".
Proof. reflexivity. Qed.

Example format_missing_key : format "{y}" [("x", "X")] = Raise KeyError.
Proof. reflexivity. Qed.

Example dumps_chart_two :
  dumps_chart [("2025-11", dec 5305 1); ("2025-12", dec 54322 2);
               ("2026-01", S754_nan)] =
  String.concat dq
    ["[{"; "d"; ": "; "2025-11"; ", "; "p"; ": 530.5}, {"; "d"; ": ";
     "2025-12"; ", "; "p"; ": 543.22}, {"; "d"; ": ";
     "2026-01"; ", "; "p"; ": NaN}]"].
Proof. vm_compute. reflexivity. Qed.

(** Experimental first, then pro, then flash, each in descending order; a
    model without generateContent and a model of no tier are left out; a
    name with both pro and flash is listed in both tiers. *)
Example get_best_models_tiers :
  get_best_models
    (Ok [ {| name := "models/gemini-1.5-flash";
             supported_generation_methods := ["generateContent"] |};
          {| name := "models/gemini-1.5-pro";
             supported_generation_methods := ["generateContent"] |};
          {| name := "models/embedding-001";
             supported_generation_methods := ["embedContent"] |};
          {| name := "models/gemini-2.0-pro-exp";
             supported_generation_methods := ["generateContent"] |};
          {| name := "models/aqa";
             supported_generation_methods := ["generateContent"] |};
          {| name := "models/gemini-2.0-pro-flash";
             supported_generation_methods := ["generateContent"] |} ]) =
  ["models/gemini-2.0-pro-exp";
   "models/gemini-2.0-pro-flash"; "models/gemini-1.5-pro";
   "models/gemini-2.0-pro-flash"; "models/gemini-1.5-flash"].
Proof. vm_compute. reflexivity. Qed.

(** The change derived from the rounded percentage: 1.375 at +25.00% is
    a float quotient a little above 1.1 and prints as +0.27. *)
Example derived_change_of_floats :
  derived_change (Some (PyFloat (dec 1375 3))) "+25.00%" = Ok "+0.27" /\
  derived_change (Some (PyFloat (dec 20001 0))) "+0.01%" = Ok "+2.00" /\
  derived_change (Some (NumPy S754_nan)) "+nan%" = Ok "+nan" /\
  derived_change (Some (PyFloat (dec 550 0))) "0%" = Ok "+0.00".
Proof. repeat split; vm_compute; reflexivity. Qed.

(** A price that fell to almost nothing: the change percent prints as
    -100.00% and the derived change divides by zero, which raises for a
    Python float and gives an infinity for a numpy.float64. *)
Example derived_change_divides_by_zero :
  change_percent (dec 1 3) (dec 100 0) = "-100.00%" /\
  derived_change (Some (PyFloat (dec 1 3))) "-100.00%" =
    Raise ZeroDivisionError /\
  derived_change (Some (NumPy (dec 1 3))) "-100.00%" = Ok "-inf".
Proof. repeat split; vm_compute; reflexivity. Qed.

(** A five-day window with a single row: the price is taken from it, the
    read of the row before fails, and the change percent stays 0%. *)
Example collect_quote_single_row :
  collect_quote
    {| ticker_object := Ok tt;
       fast_info := Ok [("last_price", Ok (Some (PyFloat (S754_zero false))));
                        ("previous_close", Ok (Some (PyFloat (dec 540 0))))];
       history_5d := Ok [dec 550 0];
       news := Ok [];
       history_1y := Ok [];
       info_at_name := Ok [];
       info_at_pb := Ok [];
       generate_content := fun _ _ _ => Raise ProviderError;
       now := EmptyString |} = (Some (NumPy (dec 550 0)), "0%").
Proof. reflexivity. Qed.

(* ================================================================= *)
(** ** Properties *)

(** *** The error monad *)

Lemma bind_Ok {A B} (m : result A) (k : A -> result B) (b : B) :
  bind m k = Ok b -> exists a, m = Ok a /\ k a = Ok b.
Proof.
  destruct m as [a|e]; simpl; intros H.
  - exists a. split; [reflexivity | exact H].
  - discriminate H.
Qed.

Lemma bind_raised {A B} (m : result A) (k : A -> result B) :
  raised (bind m k) =
  match m with
  | Ok a => raised (k a)
  | Raise _ => true
  end.
Proof. destruct m; reflexivity. Qed.

(** Splits a hypothesis [x <- m ;; k = Ok b] into its two halves. *)
Ltac split_bind H :=
  let a := fresh "a" in
  let Ha := fresh "Ha" in
  apply bind_Ok in H; destruct H as (a & Ha & H).

Lemma json_get_Ok k dflt v x :
  json_get k dflt v = Ok x ->
  exists d, v = JObj d /\ x = dict_get k dflt d.
Proof.
  destruct v; simpl; try discriminate.
  intros H. injection H as <-. eauto.
Qed.

Section Properties.
Context {L : PyLib}.

(** *** Reading a successful call of [get_stock_data] backwards *)

Lemma get_stock_data_Some cfg o tid old r :
  get_stock_data cfg o tid old = Some r ->
  let sid := replace ".TW" EmptyString tid in
  exists hist name ai,
    is_zero (fst (collect_quote o)) = false /\
    history_1y o = Ok hist /\
    ask_models cfg o sid (fst (collect_quote o)) (snd (collect_quote o))
               (chart_of hist) (collect_news o) = Ok (name, ai) /\
    merge o sid name old (fst (collect_quote o)) (snd (collect_quote o))
          (fst (chart_of hist)) (snd (chart_of hist)) ai = Ok r.
Proof.
  unfold get_stock_data, get_stock_data_body, try_except.
  destruct (ticker_object o) as [[]|]; cbn [bind]; [|discriminate].
  destruct (collect_quote o) as [price cp]; simpl fst; simpl snd.
  destruct (is_zero price); [discriminate|].
  destruct (history_1y o) as [hist|]; simpl; [|discriminate].
  destruct (ask_models _ _ _ _ _ _ _) as [[name ai]|] eqn:Ea; simpl;
    [|discriminate].
  destruct (merge _ _ _ _ _ _ _ _ _) as [rec|] eqn:Em; simpl; [|discriminate].
  intros H. injection H as <-.
  exists hist, name, ai. auto.
Qed.

(** The record [merge] builds, field by field. *)
Lemma merge_Ok o sid name old price cp dates prices ai r :
  merge o sid name old price cp dates prices ai = Ok r ->
  exists category memo price_s change industry news_events eps_table
         revenue_trend pe_status info roe technical dividend,
    carried "category" (JStr new_category) old = Ok category /\
    carried "memo" (JStr EmptyString) old = Ok memo /\
    format_price price = Ok price_s /\
    derived_change price cp = Ok change /\
    info_at_pb o = Ok info /\
    r = JObj
        [("id", JStr sid);
         ("name", name);
         ("category", category);
         ("lastUpdated", JStr (now o));
         ("ai_model", JStr (model_used ai));
         ("memo", memo);
         ("basicInfo",
          JObj [("price", JStr price_s);
                ("change", JStr change);
                ("changePercent", JStr cp)]);
         ("industry", industry);
         ("news_events", news_events);
         ("financials",
          JObj [("eps_table", eps_table);
                ("revenue_trend", revenue_trend);
                ("valuation",
                 JObj [("pe_status", pe_status);
                       ("pb", JStr (py_str (dict_get "priceToBook"
                                              (SStr "-") info)));
                       ("roe", roe);
                       ("pe_river_data",
                        JObj [("dates", JArr (map JStr dates));
                              ("price", JArr (map JFloat prices));
                              ("pe20", ai_band "pe20" (ai_res ai));
                              ("pe16", ai_band "pe16" (ai_res ai));
                              ("pe12", ai_band "pe12" (ai_res ai))])])]);
         ("technical", technical);
         ("dividend", dividend)].
Proof.
  unfold merge. intros H.
  split_bind H. rename a into fin, Ha into Hfin.
  split_bind H. rename a into val, Ha into Hval.
  split_bind H. rename a into riv, Ha into Hriv.
  split_bind H. rename a into pe20, Ha into H20.
  split_bind H. rename a into pe16, Ha into H16.
  split_bind H. rename a into pe12, Ha into H12.
  split_bind H. rename a into category, Ha into Hcat.
  split_bind H. rename a into memo, Ha into Hmemo.
  split_bind H. rename a into price_s, Ha into Hprice.
  split_bind H. rename a into change, Ha into Hchange.
  split_bind H. rename a into industry, Ha into Hind.
  split_bind H. rename a into news_events, Ha into Hnews.
  split_bind H. rename a into eps_table, Ha into Heps.
  split_bind H. rename a into revenue_trend, Ha into Hrev.
  split_bind H. rename a into pe_status, Ha into Hpe.
  split_bind H. rename a into info, Ha into Hinfo.
  split_bind H. rename a into roe, Ha into Hroe.
  split_bind H. rename a into technical, Ha into Htech.
  split_bind H. rename a into dividend, Ha into Hdiv.
  injection H as <-.
  exists category, memo, price_s, change, industry, news_events, eps_table,
         revenue_trend, pe_status, info, roe, technical, dividend.
  repeat (split; [assumption|]).
  (* the three bands are what [ai_band] reads *)
  apply json_get_Ok in Hfin as (da & Eai & ->).
  apply json_get_Ok in Hval as (df & Efin & ->).
  apply json_get_Ok in Hriv as (dv & Eval & ->).
  apply json_get_Ok in H20 as (dr & Eriv & ->).
  apply json_get_Ok in H16 as (dr16 & Eriv16 & ->).
  apply json_get_Ok in H12 as (dr12 & Eriv12 & ->).
  rewrite Eriv in Eriv16, Eriv12.
  injection Eriv16 as <-. injection Eriv12 as <-.
  assert (Hband : forall k,
             dict_get k (JArr []) dr = ai_band k (ai_res ai)).
  { intros k. unfold ai_band. rewrite Eai. simpl.
    unfold dict_get in Efin, Eval, Eriv.
    destruct (dict_lookup "financials" da) as [f|].
    - subst f. simpl.
      destruct (dict_lookup "valuation" df) as [v|].
      + subst v. simpl.
        destruct (dict_lookup "pe_river_data" dv) as [rv|].
        * subst rv. simpl. unfold dict_get.
          destruct (dict_lookup k dr); reflexivity.
        * injection Eriv as <-. reflexivity.
      + injection Eval as <-. simpl in Eriv. injection Eriv as <-.
        reflexivity.
    - injection Efin as <-. simpl in Eval. injection Eval as <-.
      simpl in Eriv. injection Eriv as <-. reflexivity. }
  rewrite !Hband. reflexivity.
Qed.

End Properties.

Lemma dict_get_lookup {V} k (dflt v : V) d :
  dict_lookup k d = Some v -> dict_get k dflt d = v.
Proof. unfold dict_get. intros ->. reflexivity. Qed.

(** A successful merge, read from the side of the answer: the answer is
    an object, and so are the sections the merge reads into. *)
Lemma merge_Ok_answer {L : PyLib} o sid name old price cp dates prices ai r :
  merge o sid name old price cp dates prices ai = Ok r ->
  exists da df dv dr,
    ai_res ai = JObj da /\
    dict_get "financials" (JObj []) da = JObj df /\
    dict_get "valuation" (JObj []) df = JObj dv /\
    dict_get "pe_river_data" (JObj []) dv = JObj dr /\
    json_path ["industry"] r = Some (dict_get "industry" (JObj []) da) /\
    json_path ["news_events"] r =
      Some (dict_get "news_events"
              (JObj [("news", JArr []); ("calendar", JArr [])]) da) /\
    json_path ["technical"] r =
      Some (dict_get "technical"
              (JObj [("signal_light", JStr "stable")]) da) /\
    json_path ["dividend"] r = Some (dict_get "dividend" (JObj []) da) /\
    json_path ["financials"; "eps_table"] r =
      Some (dict_get "eps_table" (JArr []) df) /\
    json_path ["financials"; "revenue_trend"] r =
      Some (dict_get "revenue_trend" (JArr []) df) /\
    json_path ["financials"; "valuation"; "pe_status"] r =
      Some (dict_get "pe_status" (JStr "-") dv) /\
    json_path ["financials"; "valuation"; "roe"] r =
      Some (dict_get "roe" (JStr "-") dv) /\
    json_path ["financials"; "valuation"; "pe_river_data"; "pe20"] r =
      Some (dict_get "pe20" (JArr []) dr) /\
    json_path ["financials"; "valuation"; "pe_river_data"; "pe16"] r =
      Some (dict_get "pe16" (JArr []) dr) /\
    json_path ["financials"; "valuation"; "pe_river_data"; "pe12"] r =
      Some (dict_get "pe12" (JArr []) dr).
Proof.
  unfold merge. intros H.
  split_bind H. apply json_get_Ok in Ha as (da & Eai & ->).
  split_bind H. apply json_get_Ok in Ha as (df & Efin & ->).
  split_bind H. apply json_get_Ok in Ha as (dv & Eval & ->).
  split_bind H. apply json_get_Ok in Ha as (dr & Eriv & ->).
  split_bind H. apply json_get_Ok in Ha as (dr16 & Eriv16 & ->).
  split_bind H. apply json_get_Ok in Ha as (dr12 & Eriv12 & ->).
  rewrite Eriv in Eriv16, Eriv12.
  injection Eriv16 as <-. injection Eriv12 as <-.
  split_bind H. split_bind H. split_bind H. split_bind H.
  split_bind H. rewrite Eai in Ha3. injection Ha3 as <-.
  split_bind H. rewrite Eai in Ha3. injection Ha3 as <-.
  split_bind H. rewrite Efin in Ha3. injection Ha3 as <-.
  split_bind H. rewrite Efin in Ha3. injection Ha3 as <-.
  split_bind H. rewrite Eval in Ha3. injection Ha3 as <-.
  split_bind H.
  split_bind H. rewrite Eval in Ha4. injection Ha4 as <-.
  split_bind H. rewrite Eai in Ha4. injection Ha4 as <-.
  split_bind H. rewrite Eai in Ha4. injection Ha4 as <-.
  injection H as <-.
  exists da, df, dv, dr.
  repeat (split; [first [assumption | reflexivity]|]).
  reflexivity.
Qed.

(* ================================================================= *)
(** ** The river chart *)

(** C1.  Whatever the models answer, a merged record carries as river
    chart exactly the month labels and the rounded month-end prices of
    this run's one-year history, together with the three bands of the
    accepted answer, each the empty list when the answer lacks it. *)
Theorem river_truth {L : PyLib} cfg o tid old r :
  get_stock_data cfg o tid old = Some r ->
  exists hist name ai,
    history_1y o = Ok hist /\
    ask_models cfg o (replace ".TW" EmptyString tid)
               (fst (collect_quote o)) (snd (collect_quote o))
               (chart_of hist) (collect_news o) = Ok (name, ai) /\
    json_path ["financials"; "valuation"; "pe_river_data"] r =
      Some (JObj [("dates", JArr (map JStr (fst (chart_of hist))));
                  ("price", JArr (map JFloat (snd (chart_of hist))));
                  ("pe20", ai_band "pe20" (ai_res ai));
                  ("pe16", ai_band "pe16" (ai_res ai));
                  ("pe12", ai_band "pe12" (ai_res ai))]).
Proof.
  intros H.
  apply get_stock_data_Some in H as (hist & name & ai & _ & Hh & Ha & Hm).
  exists hist, name, ai. repeat split; try assumption.
  apply merge_Ok in Hm.
  destruct Hm as (? & ? & ? & ? & ? & ? & ? & ? & ? & ? & ? & ? & ? & Hm).
  destruct Hm as (_ & _ & _ & _ & _ & ->).
  reflexivity.
Qed.

(** The answer of [ex_answer_text] proposes the chart 1999-01 at 1.0; the
    merged record keeps the history of the run and takes only [pe20]. *)
Lemma river_truth_witness :
  get_stock_data ex_settings (ex_outcomes (Ok ex_answer_text))
                 "2330.TW" (Some ex_previous) = Some ex_merged /\
  json_path ["financials"; "valuation"; "pe_river_data"] ex_merged =
    Some (JObj [("dates", JArr [JStr "2025-11"; JStr "2025-12"]);
                ("price", JArr [JFloat (dec 5305 1); JFloat (dec 54322 2)]);
                ("pe20", JArr [JFloat (dec 700 0)]);
                ("pe16", JArr []);
                ("pe12", JArr [])]).
Proof.
  assert (E : get_stock_data ex_settings (ex_outcomes (Ok ex_answer_text))
                "2330.TW" (Some ex_previous) = Some ex_merged)
    by (vm_compute; reflexivity).
  split; [exact E|].
  destruct (river_truth _ _ _ _ _ E) as (hist & name & ai & Hh & Ha & Hr).
  rewrite Hr. clear Hr.
  injection Hh as <-.
  vm_compute in Ha. injection Ha as _ <-.
  vm_compute. reflexivity.
Defined.

(* ================================================================= *)
(** ** Dictionaries, the previous state and the targets *)

Lemma dict_lookup_set {V} k k' (v : V) d :
  dict_lookup k (dict_set k' v d) =
  if String.eqb k k' then Some v else dict_lookup k d.
Proof.
  induction d as [|[k0 v0] d IH]; simpl.
  - destruct (String.eqb k k'); reflexivity.
  - destruct (String.eqb k' k0) eqn:E0; simpl.
    + apply String.eqb_eq in E0. subst k0.
      destruct (String.eqb k k'); reflexivity.
    + destruct (String.eqb k k0) eqn:E1.
      * apply String.eqb_eq in E1. subst k0.
        rewrite String.eqb_sym, E0. reflexivity.
      * exact IH.
Qed.

Lemma in_str_list_In x l : in_str_list x l = true <-> In x l.
Proof.
  unfold in_str_list. rewrite existsb_exists. split.
  - intros (y & Hy & E). apply String.eqb_eq in E. subst. exact Hy.
  - intros H. exists x. split; [exact H | apply String.eqb_refl].
Qed.

Lemma dict_keys_lookup {V} k (d : dict V) :
  In k (dict_keys d) <-> dict_lookup k d <> None.
Proof.
  induction d as [|[k0 v0] d IH]; simpl.
  - split; [intros [] | intros H; apply H; reflexivity].
  - destruct (String.eqb k k0) eqn:E.
    + apply String.eqb_eq in E. subst. split; [discriminate | auto].
    + apply String.eqb_neq in E. rewrite <- IH. split.
      * intros [H|H]; [congruence | exact H].
      * auto.
Qed.

Lemma dict_keys_set_new {V} k (v : V) d :
  ~ In k (dict_keys d) -> dict_keys (dict_set k v d) = (dict_keys d ++ [k])%list.
Proof.
  induction d as [|[k0 v0] d IH]; simpl; intros H.
  - reflexivity.
  - destruct (String.eqb k k0) eqn:E.
    + apply String.eqb_eq in E. subst. exfalso. apply H. left. reflexivity.
    + simpl. f_equal. apply IH. intros Hin. apply H. right. exact Hin.
Qed.

(** After the [--add] handling a known id still maps to its previous
    record, and the only new entry is the stub of the added id. *)
Lemma add_target_lookup {L : PyLib} add (old_map0 : dict (dict json)) sid :
  let old_map := snd (add_target add old_map0) in
  dict_lookup sid old_map = dict_lookup sid old_map0 \/
  (dict_lookup sid old_map0 = None /\ dict_lookup sid old_map = Some added_stub).
Proof.
  unfold add_target.
  destruct add as [a|]; [|left; reflexivity].
  destruct (str_truthy a); [|left; reflexivity].
  set (nid := str_upper (str_strip a)).
  destruct (in_str_list nid (dict_keys old_map0)) eqn:E;
    [left; reflexivity|].
  simpl. rewrite dict_lookup_set.
  destruct (String.eqb sid nid) eqn:Es; [|left; reflexivity].
  apply String.eqb_eq in Es. subst sid. right. split; [|reflexivity].
  destruct (dict_lookup nid old_map0) eqn:El; [|reflexivity].
  exfalso.
  assert (Hin : In nid (dict_keys old_map0))
    by (apply dict_keys_lookup; congruence).
  apply in_str_list_In in Hin. congruence.
Qed.


(** What [build_old_map] stores under an id is a record of the list read
    from the file, and that record carries the id. *)
Lemma build_old_map_sound current :
  forall acc m,
    build_old_map current acc = Ok m ->
    forall k d, dict_lookup k m = Some d ->
      dict_lookup k acc = Some d \/
      (In (JObj d) current /\ dict_lookup "id" d = Some (JStr k)).
Proof.
  induction current as [|item rest IH]; simpl; intros acc m H k d Hk.
  - injection H as <-. left. exact Hk.
  - split_bind H. destruct a as [i di].
    destruct (IH _ _ H _ _ Hk) as [Hacc|[Hin Hid]].
    + rewrite dict_lookup_set in Hacc.
      destruct (String.eqb k i) eqn:E.
      * apply String.eqb_eq in E. subst i. injection Hacc as ->.
        right. unfold item_id in Ha.
        destruct item; try discriminate.
        destruct (dict_lookup "id" fields) as [[]|] eqn:Eid; try discriminate.
        injection Ha as -> ->. split; [left; reflexivity | exact Eid].
      * left. exact Hacc.
    + right. split; [right; exact Hin | exact Hid].
Qed.

Lemma dict_keys_set {V} k (v : V) d :
  dict_keys (dict_set k v d) = note_id (dict_keys d) k.
Proof.
  unfold note_id.
  destruct (existsb (String.eqb k) (dict_keys d)) eqn:E.
  - induction d as [|[k0 v0] d IH]; simpl in *; [discriminate|].
    destruct (String.eqb k k0) eqn:E0.
    + apply String.eqb_eq in E0. subst k0. reflexivity.
    + simpl in E. simpl. f_equal. apply IH. exact E.
  - apply dict_keys_set_new. intros Hin.
    apply in_str_list_In in Hin. unfold in_str_list in Hin. congruence.
Qed.

Lemma build_old_map_keys current ids :
  Forall2 (fun item i => exists d, item_id item = Ok (i, d)) current ids ->
  forall acc,
    exists m, build_old_map current acc = Ok m /\
              dict_keys m = fold_left note_id ids (dict_keys acc).
Proof.
  induction 1 as [|item i current ids (d & Hi) _ IH]; intros acc.
  - exists acc. auto.
  - simpl. rewrite Hi. simpl.
    destruct (IH (dict_set i d acc)) as (m & Hm & Hk).
    exists m. split; [exact Hm|].
    rewrite Hk, dict_keys_set. reflexivity.
Qed.

Lemma fold_note_id_distinct ids :
  forall seen,
    NoDup (seen ++ ids) -> fold_left note_id ids seen = (seen ++ ids)%list.
Proof.
  induction ids as [|i ids IH]; intros seen Hnd; simpl.
  - rewrite app_nil_r. reflexivity.
  - assert (Hfresh : existsb (String.eqb i) seen = false).
    { destruct (existsb (String.eqb i) seen) eqn:E; [|reflexivity].
      exfalso. apply NoDup_remove_2 in Hnd. apply Hnd.
      apply in_or_app. left. apply in_str_list_In. exact E. }
    unfold note_id at 2. rewrite Hfresh.
    rewrite IH; rewrite <- app_assoc; [reflexivity | exact Hnd].
Qed.

(** *** The loop, turn by turn *)

Lemma fold_append_flat_map {A B} (f : A -> list B) l :
  forall acc,
    fold_left (fun final x => (final ++ f x)%list) l acc =
    (acc ++ flat_map f l)%list.
Proof.
  induction l as [|x l IH]; intros acc; simpl.
  - rewrite app_nil_r. reflexivity.
  - rewrite IH, <- app_assoc. reflexivity.
Qed.

Lemma run_loop_flat_map {L : PyLib} w old_map targets :
  run_loop w old_map targets = flat_map (process_target w old_map) targets.
Proof. unfold run_loop. rewrite fold_append_flat_map. reflexivity. Qed.

(** What the loop appends for a target list is what it appends for the
    targets before a target, then for the target, then for the rest. *)
Lemma run_loop_app {L : PyLib} w old_map pre sid post :
  run_loop w old_map (pre ++ sid :: post) =
  (run_loop w old_map pre ++ process_target w old_map sid
     ++ run_loop w old_map post)%list.
Proof.
  rewrite !run_loop_flat_map, flat_map_app. reflexivity.
Qed.

Lemma main_Ok {L : PyLib} w old_map0 :
  build_old_map (get_current_list w) [] = Ok old_map0 ->
  main w = Ok (run_loop w (snd (add_target (cli_add w) old_map0))
                          (fst (add_target (cli_add w) old_map0))).
Proof.
  intros Hb. unfold main. rewrite Hb. cbn [bind].
  destruct (add_target (cli_add w) old_map0). reflexivity.
Qed.

Lemma zero_price_returns_None {L : PyLib} cfg o tid old :
  is_zero (fst (collect_quote o)) = true ->
  get_stock_data cfg o tid old = None.
Proof.
  unfold get_stock_data, get_stock_data_body.
  destruct (ticker_object o) as [[]|]; cbn [bind]; [|reflexivity].
  destruct (collect_quote o) as [price cp]. simpl.
  intros ->. reflexivity.
Qed.

(** The turn of a target for which no record is built. *)
Lemma no_record_turn {L : PyLib} w old_map0 sid :
  get_stock_data (settings_of w) (ticker_outcomes w sid) sid
    (option_map JObj
       (dict_lookup sid (snd (add_target (cli_add w) old_map0)))) = None ->
  process_target w (snd (add_target (cli_add w) old_map0)) sid =
    match dict_lookup sid old_map0 with
    | Some prev => if dict_mem "name" prev then [JObj prev] else []
    | None => []
    end.
Proof.
  intros Hn. unfold process_target. rewrite Hn.
  destruct (add_target_lookup (cli_add w) old_map0 sid) as [E|[E0 E]];
    simpl in E; rewrite E.
  - reflexivity.
  - rewrite E0. reflexivity.
Qed.

Lemma total_failure_turn {L : PyLib} w old_map0 sid :
  build_old_map (get_current_list w) [] = Ok old_map0 ->
  is_zero (fst (collect_quote (ticker_outcomes w sid))) = true ->
  process_target w (snd (add_target (cli_add w) old_map0)) sid =
    match dict_lookup sid old_map0 with
    | Some prev => if dict_mem "name" prev then [JObj prev] else []
    | None => []
    end.
Proof.
  intros _ Hz. apply no_record_turn.
  apply zero_price_returns_None. exact Hz.
Qed.

(** The turn of a target for which a record is built. *)
Lemma record_turn {L : PyLib} w old_map sid r :
  get_stock_data (settings_of w) (ticker_outcomes w sid) sid
    (option_map JObj (dict_lookup sid old_map)) = Some r ->
  process_target w old_map sid = [r].
Proof.
  intros H. unfold process_target. rewrite H.
  apply get_stock_data_Some in H as (hist & name & ai & _ & _ & _ & Hm).
  apply merge_Ok in Hm.
  destruct Hm as (? & ? & ? & ? & ? & ? & ? & ? & ? & ? & ? & ? & ? & Hm).
  destruct Hm as (_ & _ & _ & _ & _ & ->).
  reflexivity.
Qed.

(** One turn of the loop appends nothing, or one record whose id is the
    target (a carried record) or the target without its market suffix (a
    merged record). *)
Lemma process_target_shape {L : PyLib} w old_map0 sid :
  build_old_map (get_current_list w) [] = Ok old_map0 ->
  let turn := process_target w (snd (add_target (cli_add w) old_map0)) sid in
  turn = [] \/
  exists r, turn = [r] /\
    (json_path ["id"] r = Some (JStr sid) \/
     json_path ["id"] r = Some (JStr (replace ".TW" EmptyString sid))).
Proof.
  intros Hb. cbv zeta.
  destruct (get_stock_data (settings_of w) (ticker_outcomes w sid) sid
              (option_map JObj
                 (dict_lookup sid (snd (add_target (cli_add w) old_map0)))))
    as [r|] eqn:Eg.
  - rewrite (record_turn _ _ _ _ Eg).
    apply get_stock_data_Some in Eg as (hist & name & ai & _ & _ & _ & Hm).
    apply merge_Ok in Hm.
    destruct Hm as (? & ? & ? & ? & ? & ? & ? & ? & ? & ? & ? & ? & ? & Hm).
    destruct Hm as (_ & _ & _ & _ & _ & ->).
    right. eexists. split; [reflexivity|]. right. reflexivity.
  - rewrite (no_record_turn _ _ _ Eg).
    destruct (dict_lookup sid old_map0) as [prev|] eqn:E0; [|left; reflexivity].
    destruct (dict_mem "name" prev); [|left; reflexivity].
    right. exists (JObj prev). split; [reflexivity|]. left.
    destruct (build_old_map_sound _ _ _ Hb _ _ E0) as [Hacc|[_ Hid]];
      [discriminate|].
    simpl. rewrite Hid. reflexivity.
Qed.

(* ================================================================= *)
(** ** Category and memo *)




(* ================================================================= *)
(** ** Total failure of the quote *)

(** C2.  When the quote of a target fails altogether (the price is zero
    after the fallback), the run's output is what the loop appended for
    the targets before it, then the previous record of that id as it was
    read from the file if there is one and it has a name, and nothing
    otherwise, then what the loop appends for the targets after it.  An
    id that was not among the previous records, such as a newly added
    one, leaves no trace in the output. *)
Theorem total_failure_carries_or_drops {L : PyLib} w old_map0 pre sid post :
  build_old_map (get_current_list w) [] = Ok old_map0 ->
  fst (add_target (cli_add w) old_map0) = (pre ++ sid :: post)%list ->
  is_zero (fst (collect_quote (ticker_outcomes w sid))) = true ->
  let old_map := snd (add_target (cli_add w) old_map0) in
  main w =
    Ok (run_loop w old_map pre ++
        match dict_lookup sid old_map0 with
        | Some prev => if dict_mem "name" prev then [JObj prev] else []
        | None => []
        end ++
        run_loop w old_map post)%list /\
  (forall prev, dict_lookup sid old_map0 = Some prev ->
     In (JObj prev) (get_current_list w) /\
     dict_lookup "id" prev = Some (JStr sid)) /\
  (~ In sid (dict_keys old_map0) ->
   main w = Ok (run_loop w old_map pre ++ run_loop w old_map post)%list).
Proof.
  intros Hb Ht Hz old_map.
  assert (Hmain : main w =
    Ok (run_loop w old_map pre ++
        match dict_lookup sid old_map0 with
        | Some prev => if dict_mem "name" prev then [JObj prev] else []
        | None => []
        end ++
        run_loop w old_map post)%list).
  { rewrite (main_Ok _ _ Hb), Ht, run_loop_app.
    fold old_map. unfold old_map at 2.
    rewrite (total_failure_turn _ _ _ Hb Hz). reflexivity. }
  split; [exact Hmain|]. split.
  - intros prev E0.
    destruct (build_old_map_sound _ _ _ Hb _ _ E0) as [Hacc|H];
      [discriminate | exact H].
  - intros Hnew. rewrite Hmain.
    destruct (dict_lookup sid old_map0) eqn:E0; [|reflexivity].
    exfalso. apply Hnew. apply dict_keys_lookup. congruence.
Qed.

(** In [ex_world_mixed] only B has a price: A is carried over as it was,
    the added D leaves nothing, and B is built anew. *)
Lemma total_failure_carries_or_drops_witness :
  exists rB,
    main ex_world_mixed = Ok [ex_record "A"; rB] /\
    json_path ["id"] rB = Some (JStr "B") /\
    json_path ["lastUpdated"] rB = Some (JStr "2026-01-05 09:00").
Proof.
  assert (Hb : build_old_map (get_current_list ex_world_mixed) [] =
               Ok [("A", [("id", JStr "A"); ("name", JStr "A");
                          ("category", JStr "core holding");
                          ("memo", JStr "kept")]);
                   ("B", [("id", JStr "B"); ("name", JStr "B");
                          ("category", JStr "core holding");
                          ("memo", JStr "kept")])])
    by reflexivity.
  destruct (total_failure_carries_or_drops (L := ex_lib) ex_world_mixed _
              ["D"] "A" ["B"] Hb ltac:(reflexivity) ltac:(reflexivity))
    as (HA & _ & _).
  eexists. split; [|split].
  - rewrite HA. vm_compute. reflexivity.
  - reflexivity.
  - reflexivity.
Defined.

(* ================================================================= *)
(** ** Target order and output order *)

(** C7.  The targets of a run are the ids of the previous records in
    their order (each id once; all of them when they are distinct),
    preceded by the added id, stripped and upper-cased, when one is given
    and it is not among them.  The output is made target by target in
    that order: a target gives the record built for it, whose id is the
    target without its market suffix, or else its previous record if
    that has a name, whose id is the target, or else nothing. *)
Theorem target_order_preserved {L : PyLib} w ids :
  Forall2 (fun item i => exists d, item_id item = Ok (i, d))
          (get_current_list w) ids ->
  let known := first_occurrences ids in
  let targets :=
    match cli_add w with
    | Some a =>
        if str_truthy a
           && negb (in_str_list (str_upper (str_strip a)) known)
        then str_upper (str_strip a) :: known
        else known
    | None => known
    end in
  (NoDup ids -> known = ids) /\
  targets_of w = Ok targets /\
  exists old_map0,
    build_old_map (get_current_list w) [] = Ok old_map0 /\
    let old_map := snd (add_target (cli_add w) old_map0) in
    let built sid :=
      get_stock_data (settings_of w) (ticker_outcomes w sid) sid
                     (option_map JObj (dict_lookup sid old_map)) in
    main w =
      Ok (flat_map
            (fun sid =>
               match built sid with
               | Some r => [r]
               | None =>
                   match dict_lookup sid old_map with
                   | Some prev =>
                       if dict_mem "name" prev then [JObj prev] else []
                   | None => []
                   end
               end) targets) /\
    forall sid,
      match built sid with
      | Some r =>
          json_path ["id"] r = Some (JStr (replace ".TW" EmptyString sid))
      | None =>
          forall prev,
            dict_lookup sid old_map = Some prev ->
            dict_mem "name" prev = true ->
            json_path ["id"] (JObj prev) = Some (JStr sid)
      end.
Proof.
  intros Hids known targets.
  destruct (build_old_map_keys _ _ Hids []) as (m & Hm & Hk).
  simpl in Hk. fold (first_occurrences ids) in Hk. fold known in Hk.
  assert (Ht : fst (add_target (cli_add w) m) = targets).
  { unfold add_target, targets. rewrite Hk.
    destruct (cli_add w) as [a|]; [|reflexivity].
    destruct (str_truthy a); [|reflexivity].
    destruct (in_str_list (str_upper (str_strip a)) known); reflexivity. }
  split.
  { intros Hnd. unfold known, first_occurrences.
    apply (fold_note_id_distinct ids []). exact Hnd. }
  split.
  { unfold targets_of. rewrite Hm. simpl. rewrite Ht. reflexivity. }
  exists m. split; [exact Hm|]. cbv zeta. split.
  - rewrite (main_Ok _ _ Hm), Ht, run_loop_flat_map. f_equal.
    apply flat_map_ext. intros sid.
    destruct (get_stock_data (settings_of w) (ticker_outcomes w sid) sid
                (option_map JObj
                   (dict_lookup sid (snd (add_target (cli_add w) m)))))
      as [r|] eqn:Eg.
    + apply record_turn. exact Eg.
    + unfold process_target. rewrite Eg. reflexivity.
  - intros sid.
    destruct (get_stock_data (settings_of w) (ticker_outcomes w sid) sid
                (option_map JObj
                   (dict_lookup sid (snd (add_target (cli_add w) m)))))
      as [r|] eqn:Eg.
    + apply get_stock_data_Some in Eg as (hist & name & ai & _ & _ & _ & Hr).
      apply merge_Ok in Hr.
      destruct Hr as (? & ? & ? & ? & ? & ? & ? & ? & ? & ? & ? & ? & ? & Hr).
      destruct Hr as (_ & _ & _ & _ & _ & ->).
      reflexivity.
    + intros prev Hp Hn.
      destruct (add_target_lookup (cli_add w) m sid) as [E|[_ E]];
        simpl in E; rewrite E in Hp.
      * destruct (build_old_map_sound _ _ _ Hm _ _ Hp) as [Hacc|[_ Hid]];
          [discriminate|].
        simpl. rewrite Hid. reflexivity.
      * injection Hp as <-. discriminate Hn.
Qed.

(** Previous ids A, B, C, all quoted, and [--add] of d with blanks around
    it: the targets are D, A, B, C and the output has a record for each,
    in that order. *)
Lemma target_order_preserved_witness :
  targets_of ex_world_quoted = Ok ["D"; "A"; "B"; "C"] /\
  exists out,
    main ex_world_quoted = Ok out /\
    map (json_path ["id"]) out =
      [Some (JStr "D"); Some (JStr "A"); Some (JStr "B"); Some (JStr "C")].
Proof.
  assert (Hids : Forall2 (fun item i => exists d, item_id item = Ok (i, d))
                         (get_current_list ex_world_quoted) ["A"; "B"; "C"])
    by (repeat constructor; eexists; reflexivity).
  destruct (target_order_preserved ex_world_quoted ["A"; "B"; "C"] Hids)
    as (_ & Ht & om & Hom & Hmain & _).
  split; [exact Ht|].
  eexists. split; [exact Hmain|].
  vm_compute in Hom. injection Hom as <-.
  vm_compute. reflexivity.
Defined.

(* ================================================================= *)
(** ** The model catalogue *)

Lemma ascii_compare_trans_lt a b c :
  Ascii.compare a b = Lt -> Ascii.compare b c = Lt -> Ascii.compare a c = Lt.
Proof.
  unfold Ascii.compare. rewrite !N.compare_lt_iff. apply N.lt_trans.
Qed.

Lemma ascii_compare_Eq a b : Ascii.compare a b = Eq -> a = b.
Proof.
  unfold Ascii.compare. intros H. apply N.compare_eq in H.
  rewrite <- (ascii_N_embedding a), <- (ascii_N_embedding b), H.
  reflexivity.
Qed.

Lemma string_leb_trans s1 :
  forall s2 s3,
    String.leb s1 s2 = true -> String.leb s2 s3 = true ->
    String.leb s1 s3 = true.
Proof.
  unfold String.leb.
  induction s1 as [|a s1 IH]; intros [|b s2] [|c s3]; simpl;
    try reflexivity; try discriminate.
  destruct (Ascii.compare a b) eqn:Eab; try discriminate.
  - apply ascii_compare_Eq in Eab. subst b.
    destruct (Ascii.compare a c); try discriminate; try reflexivity.
    apply IH.
  - destruct (Ascii.compare b c) eqn:Ebc; try discriminate.
    + apply ascii_compare_Eq in Ebc. subst c. rewrite Eab. reflexivity.
    + rewrite (ascii_compare_trans_lt _ _ _ Eab Ebc). reflexivity.
Qed.

Lemma desc_trans : Relations_1.Transitive desc.
Proof.
  intros a b c Hab Hbc. unfold desc in *.
  exact (string_leb_trans _ _ _ Hbc Hab).
Qed.

Lemma insert_desc_perm x l : Permutation (insert_desc x l) (x :: l).
Proof.
  induction l as [|y l IH]; simpl.
  - apply Permutation_refl.
  - destruct (String.leb y x).
    + apply Permutation_refl.
    + apply perm_trans with (y :: x :: l).
      * apply perm_skip. exact IH.
      * apply perm_swap.
Qed.

Lemma sort_desc_perm l : Permutation (sort_desc l) l.
Proof.
  induction l as [|x l IH]; simpl.
  - apply perm_nil.
  - apply perm_trans with (x :: sort_desc l).
    + apply insert_desc_perm.
    + apply perm_skip. exact IH.
Qed.

Lemma insert_desc_head x y l :
  desc y x -> HdRel desc y l -> HdRel desc y (insert_desc x l).
Proof.
  intros Hyx Hl. destruct l as [|z l]; simpl.
  - constructor. exact Hyx.
  - destruct (String.leb z x).
    + constructor. exact Hyx.
    + constructor. inversion Hl. assumption.
Qed.

Lemma insert_desc_sorted x l :
  Sorted desc l -> Sorted desc (insert_desc x l).
Proof.
  induction 1 as [|y l Hs IH Hhd]; simpl.
  - repeat constructor.
  - destruct (String.leb y x) eqn:E.
    + constructor.
      * constructor; assumption.
      * constructor. exact E.
    + constructor; [exact IH|].
      apply insert_desc_head; [|exact Hhd].
      unfold desc. destruct (String.leb_total x y) as [H|H];
        [exact H | congruence].
Qed.

Lemma sort_desc_sorted l : StronglySorted desc (sort_desc l).
Proof.
  apply Sorted_StronglySorted; [exact desc_trans|].
  induction l as [|x l IH]; simpl.
  - constructor.
  - apply insert_desc_sorted. exact IH.
Qed.


(* ================================================================= *)
(** ** The failover loop *)

(** The loop started at position [i]: either some model is the first to
    answer with parseable text, and the loop stops there, or all fail. *)
Lemma failover_from {L : PyLib} gen prompt models :
  forall i,
    let r := failover gen prompt i models in
    (exists pre m post parsed,
        models = (pre ++ m :: post)%list /\
        (forall k m', nth_error pre k = Some m' ->
                      raised (attempt gen prompt (i + k) m') = true) /\
        attempt gen prompt (i + List.length pre) m = Ok parsed /\
        ai_res r = parsed /\
        model_used r = replace "models/" EmptyString m /\
        attempts r = (pre ++ [m])%list)
    \/
    ((forall k m', nth_error models k = Some m' ->
                   raised (attempt gen prompt (i + k) m') = true) /\
     ai_res r = JObj [] /\
     model_used r = "N/A" /\
     attempts r = models).
Proof.
  induction models as [|m rest IH]; intros i; simpl.
  - right. split; [|auto]. intros [|k] m'; discriminate.
  - destruct (attempt gen prompt i m) as [parsed|e] eqn:Ea.
    + left. exists [], m, rest, parsed. simpl.
      rewrite Nat.add_0_r. repeat split; try assumption.
      intros [|k] m'; discriminate.
    + destruct (IH (S i)) as
        [(pre & m1 & post & parsed & Hm & Hpre & Hok & Hres & Hused & Hatt)
        |(Hall & Hres & Hused & Hatt)].
      * left. exists (m :: pre), m1, post, parsed. simpl.
        rewrite Hres, Hused, Hatt, Hm.
        repeat split; try reflexivity.
        -- intros [|k] m' Hk; simpl in Hk.
           ++ injection Hk as <-. rewrite Nat.add_0_r, Ea. reflexivity.
           ++ rewrite Nat.add_succ_r. apply (Hpre k m' Hk).
        -- rewrite Nat.add_succ_r. exact Hok.
      * right. simpl. rewrite Hres, Hused, Hatt.
        repeat split; try reflexivity.
        intros [|k] m' Hk; simpl in Hk.
        -- injection Hk as <-. rewrite Nat.add_0_r, Ea. reflexivity.
        -- rewrite Nat.add_succ_r. apply (Hall k m' Hk).
Qed.

(** One turn succeeds when the call returns a text that parses once the
    fences are removed and the ends are stripped. *)
Lemma attempt_Ok {L : PyLib} gen prompt i m parsed :
  attempt gen prompt i m = Ok parsed ->
  exists text,
    gen i m prompt = Ok text /\
    json_loads (str_strip (replace "```" EmptyString
                             (replace "```json" EmptyString text)))
      = Ok parsed.
Proof.
  unfold attempt. intros H. split_bind H. exists a. auto.
Qed.

(** It fails when the call raises or the text does not parse. *)
Lemma attempt_raised {L : PyLib} gen prompt i m :
  raised (attempt gen prompt i m) = true ->
  (exists e, gen i m prompt = Raise e) \/
  (exists text e,
     gen i m prompt = Ok text /\
     json_loads (str_strip (replace "```" EmptyString
                              (replace "```json" EmptyString text)))
       = Raise e).
Proof.
  unfold attempt. destruct (gen i m prompt) as [text|e]; cbn [bind].
  - intros H. right. unfold strip_fences in H.
    destruct (json_loads _) as [v|e] eqn:E; [discriminate H|].
    exists text, e. auto.
  - intros _. left. eauto.
Qed.

(** C3, as the script has it.  The loop visits the models once, in
    order: it calls the model with the prompt, removes the code fence
    markers from the text and strips its ends, and parses it.  It stops
    at the first model for which the call returns and the text parses;
    what was parsed is the answer as it is, and the model-used value is
    that model's identifier with every occurrence of models/ removed.  A
    model whose call raises or whose text does not parse is passed over,
    once.  When all fail the answer is the empty object and the
    model-used value is N/A.  A merged record built with a key
    configured stores the model-used value of the loop run on the prompt
    composed from this run's facts, and reads its sections from that
    loop's answer; without a key the loop is not entered and the value
    is N/A. *)
Theorem failover_spec {L : PyLib} :
  (forall gen prompt models,
     let r := failover gen prompt 0 models in
     let unfenced text :=
       str_strip (replace "```" EmptyString
                    (replace "```json" EmptyString text)) in
     let fails k m :=
       (exists e, gen k m prompt = Raise e) \/
       (exists text e,
          gen k m prompt = Ok text /\
          json_loads (unfenced text) = Raise e) in
     (exists pre m post text parsed,
         models = (pre ++ m :: post)%list /\
         (forall k m', nth_error pre k = Some m' -> fails k m') /\
         gen (List.length pre) m prompt = Ok text /\
         json_loads (unfenced text) = Ok parsed /\
         ai_res r = parsed /\
         model_used r = replace "models/" EmptyString m /\
         attempts r = (pre ++ [m])%list)
     \/
     ((forall k m', nth_error models k = Some m' -> fails k m') /\
      ai_res r = JObj [] /\
      model_used r = "N/A" /\
      attempts r = models)) /\
  (forall cfg o tid old rec,
     get_stock_data cfg o tid old = Some rec ->
     let sid := replace ".TW" EmptyString tid in
     if key_configured cfg then
       exists hist info p prompt answer,
         history_1y o = Ok hist /\
         info_at_name o = Ok info /\
         fst (collect_quote o) = Some p /\
         compose_prompt (py_str (dict_get "longName" (SStr sid) info)) sid
                        (format_2f (value p)) (snd (collect_quote o))
                        (dumps_chart (combine (fst (chart_of hist))
                                              (snd (chart_of hist))))
                        (collect_news o) = Ok prompt /\
         let r := failover (generate_content o) prompt 0
                           (MODEL_PRIORITY cfg) in
         json_path ["ai_model"] rec = Some (JStr (model_used r)) /\
         ai_res r = JObj answer /\
         json_path ["industry"] rec =
           Some (dict_get "industry" (JObj []) answer) /\
         json_path ["technical"] rec =
           Some (dict_get "technical"
                   (JObj [("signal_light", JStr "stable")]) answer)
     else json_path ["ai_model"] rec = Some (JStr "N/A")).
Proof.
  split.
  - intros gen prompt models. cbv zeta.
    destruct (failover_from gen prompt models 0)
      as [(pre & m & post & parsed & Hm & Hpre & Hok & Hres & Hused & Hatt)
         |(Hall & Hres & Hused & Hatt)].
    + left. apply attempt_Ok in Hok as (text & Hg & Hp).
      exists pre, m, post, text, parsed.
      repeat split; try assumption.
      intros k m' Hk. apply attempt_raised. exact (Hpre k m' Hk).
    + right. repeat split; try assumption.
      intros k m' Hk. apply attempt_raised. exact (Hall k m' Hk).
  - intros cfg o tid old rec H sid.
    apply get_stock_data_Some in H as (hist & name & ai & _ & Hh & Ha & Hm).
    fold sid in Ha, Hm.
    pose proof (merge_Ok_answer _ _ _ _ _ _ _ _ _ _ Hm)
      as (da & _ & _ & _ & Eai & _ & _ & _ & Hind & _ & Htech & _).
    apply merge_Ok in Hm.
    destruct Hm as (? & ? & ? & ? & ? & ? & ? & ? & ? & ? & ? & ? & ? & Hm).
    destruct Hm as (_ & _ & _ & _ & _ & Hrec).
    unfold ask_models in Ha.
    destruct (key_configured cfg).
    + split_bind Ha. rename a into info, Ha0 into Hi.
      split_bind Ha. rename a into price_s, Ha0 into Hps.
      split_bind Ha. rename a into prompt, Ha0 into Hpr.
      injection Ha as _ <-.
      unfold format_price in Hps.
      destruct (fst (collect_quote o)) as [p|]; [|discriminate Hps].
      injection Hps as <-.
      exists hist, info, p, prompt, da.
      repeat (split; [first [assumption | reflexivity]|]).
      cbv zeta. split; [rewrite Hrec; reflexivity|].
      split; [exact Eai|]. split; assumption.
    + injection Ha as _ <-. rewrite Hrec. reflexivity.
Qed.

(** With the default list, a first model that answers in prose and a
    second that answers in a code fence: the first is passed over, the
    fence of the second is removed, and the record names the second
    model without the models/ marker and has its industry section. *)
Lemma failover_spec_witness :
  (exists text,
     generate_content ex_outcomes_failover 1 "models/gemini-1.5-flash"
                      ex_prompt = Ok text /\
     attempts (failover (generate_content ex_outcomes_failover) ex_prompt 0
                        defaults) = defaults) /\
  json_path ["ai_model"] ex_merged_failover = Some (JStr "gemini-1.5-flash") /\
  json_path ["industry"] ex_merged_failover =
    Some (JObj [("moat_status", JStr "wide")]).
Proof.
  split.
  - destruct (proj1 (@failover_spec ex_lib)
                (generate_content ex_outcomes_failover) ex_prompt defaults)
      as [(pre & m & post & text & parsed & Hm & Hpre & Hg & Hp & Hres
           & Hused & Hatt)
         |(_ & _ & Hused & _)].
    + assert (E : (pre ++ [m])%list = defaults)
        by (rewrite <- Hatt; vm_compute; reflexivity).
      change defaults with (["models/gemini-1.5-pro"]
                              ++ ["models/gemini-1.5-flash"])%list in E.
      apply app_inj_tail in E as [-> ->].
      exists text. split; [exact Hg | vm_compute; reflexivity].
    + vm_compute in Hused. discriminate Hused.
  - pose proof (proj2 (@failover_spec ex_lib) ex_settings
                  ex_outcomes_failover "2330.TW" None ex_merged_failover
                  ltac:(vm_compute; reflexivity)) as H.
    cbv zeta in H. change (key_configured ex_settings) with true in H.
    cbv iota in H.
    destruct H as (hist & info & p & prompt & answer & Hh & Hi & Hp & Hpr
                   & Hmodel & Hres & Hind & _).
    injection Hh as <-. injection Hi as <-.
    vm_compute in Hp. injection Hp as <-.
    vm_compute in Hpr. injection Hpr as <-.
    rewrite Hmodel, Hind.
    vm_compute in Hres. injection Hres as <-.
    split; vm_compute; reflexivity.
Defined.

(** The claim that the identifier itself is stored fails: the model that
    answered is models/gemini-1.5-pro, the record says gemini-1.5-pro. *)
Lemma model_used_is_not_the_identifier :
  attempts (failover (generate_content (ex_outcomes (Ok ex_answer_text)))
                     "prompt" 0 (MODEL_PRIORITY ex_settings))
    = ["models/gemini-1.5-pro"] /\
  get_stock_data ex_settings (ex_outcomes (Ok ex_answer_text))
                 "2330.TW" (Some ex_previous) = Some ex_merged /\
  json_path ["ai_model"] ex_merged = Some (JStr "gemini-1.5-pro") /\
  "gemini-1.5-pro" <> "models/gemini-1.5-pro".
Proof.
  split; [vm_compute; reflexivity|].
  split; [vm_compute; reflexivity|].
  split; [reflexivity | discriminate].
Qed.

(* ================================================================= *)
(** ** The prompt and the news *)

(** A keyword that names no field of the template has no influence on
    the formatted text. *)
Lemma format_from_unused_keyword k kw kw' :
  (forall key, key <> k -> dict_lookup key kw = dict_lookup key kw') ->
  forall s st,
    ~ In k (fields_from st s) ->
    format_from st kw s = format_from st kw' s.
Proof.
  intros Hagree.
  induction s as [|c s IH]; intros st Hk.
  - reflexivity.
  - destruct st as [| |key|]; simpl in *.
    + destruct (Ascii.eqb c "{"); [apply IH; exact Hk|].
      destruct (Ascii.eqb c "}"); [apply IH; exact Hk|].
      rewrite (IH InText Hk). reflexivity.
    + destruct (Ascii.eqb c "{"); [rewrite (IH InText Hk); reflexivity|].
      destruct (Ascii.eqb c "}"); [reflexivity|].
      apply IH. exact Hk.
    + destruct (Ascii.eqb c "}").
      * simpl in Hk.
        assert (Hne : key <> k) by (intros ->; apply Hk; left; reflexivity).
        rewrite (Hagree key Hne).
        destruct (dict_lookup key kw'); [|reflexivity].
        rewrite (IH InText); [reflexivity|].
        intros Hin. apply Hk. right. exact Hin.
      * destruct (Ascii.eqb c "{"); [reflexivity|].
        apply IH. exact Hk.
    + destruct (Ascii.eqb c "}"); [|reflexivity].
      rewrite (IH InText Hk). reflexivity.
Qed.

Lemma template_fields :
  fields_of PROMPT_TEMPLATE =
  ["name"; "stock_id"; "price"; "change_pct"; "chart_dump"].
Proof. vm_compute. reflexivity. Qed.

Lemma format_unused_keyword k kw kw' template :
  (forall key, key <> k -> dict_lookup key kw = dict_lookup key kw') ->
  ~ In k (fields_of template) ->
  format template kw = format template kw'.
Proof.
  intros Hagree Hk. unfold format.
  exact (format_from_unused_keyword k kw kw' Hagree template InText Hk).
Qed.

Lemma compose_prompt_ignores_news name sid price cp chart news1 news2 :
  compose_prompt name sid price cp chart news1 =
  compose_prompt name sid price cp chart news2.
Proof.
  unfold compose_prompt.
  apply format_unused_keyword with (k := "news_summary").
  - intros key Hne. simpl.
    apply String.eqb_neq in Hne. rewrite Hne. reflexivity.
  - rewrite template_fields. simpl. intuition discriminate.
Qed.

Lemma ask_models_ignores_news {L : PyLib} cfg o sid price cp chart nw :
  ask_models cfg (with_news nw o) sid price cp chart
             (collect_news (with_news nw o)) =
  ask_models cfg o sid price cp chart (collect_news o).
Proof.
  unfold ask_models.
  change (info_at_name (with_news nw o)) with (info_at_name o).
  change (generate_content (with_news nw o)) with (generate_content o).
  destruct (key_configured cfg); [|reflexivity].
  destruct (info_at_name o); cbn [bind]; [|reflexivity].
  destruct (format_price price); cbn [bind]; [|reflexivity].
  rewrite (compose_prompt_ignores_news _ _ _ _ _
             (collect_news (with_news nw o)) (collect_news o)).
  reflexivity.
Qed.

Lemma get_stock_data_ignores_news {L : PyLib} cfg o tid old nw :
  get_stock_data cfg (with_news nw o) tid old = get_stock_data cfg o tid old.
Proof.
  unfold get_stock_data, get_stock_data_body.
  change (ticker_object (with_news nw o)) with (ticker_object o).
  destruct (ticker_object o) as [[]|]; cbn [bind]; [|reflexivity].
  change (collect_quote (with_news nw o)) with (collect_quote o).
  destruct (collect_quote o) as [price cp].
  destruct (is_zero price); [reflexivity|].
  change (history_1y (with_news nw o)) with (history_1y o).
  destruct (history_1y o) as [hist|]; cbn [bind]; [|reflexivity].
  rewrite ask_models_ignores_news. reflexivity.
Qed.

(** C10.  The template has no field for the news summary, so the prompt
    is the same whatever the news query returned, and so is everything
    [get_stock_data] computes. *)
Theorem prompt_independent_of_news {L : PyLib} :
  ~ In "news_summary" (fields_of PROMPT_TEMPLATE) /\
  (forall name sid price cp chart news1 news2,
     compose_prompt name sid price cp chart news1 =
     compose_prompt name sid price cp chart news2) /\
  (forall cfg o sid price cp chart nw,
     ask_models cfg (with_news nw o) sid price cp chart
                (collect_news (with_news nw o)) =
     ask_models cfg o sid price cp chart (collect_news o)) /\
  (forall cfg o tid old nw,
     get_stock_data cfg (with_news nw o) tid old =
     get_stock_data cfg o tid old).
Proof.
  split.
  - rewrite template_fields. simpl. intuition discriminate.
  - split; [exact compose_prompt_ignores_news|].
    split; [intros; apply ask_models_ignores_news|].
    intros. apply get_stock_data_ignores_news.
Qed.

(* ================================================================= *)
(** ** What makes [get_stock_data] give up *)








(* ================================================================= *)
(** ** Two-decimal formatting and its reading back *)

Lemma append_assoc_str (a b c : string) : (a ++ b) ++ c = a ++ (b ++ c).
Proof. induction a as [|x a IH]; simpl; [reflexivity | rewrite IH; reflexivity]. Qed.

Lemma rstrip_by_drop_last p s c :
  p c = true -> rstrip_by p (s ++ String c EmptyString) = rstrip_by p s.
Proof.
  intros Hc. induction s as [|a s IH]; simpl.
  - rewrite Hc. reflexivity.
  - rewrite IH. reflexivity.
Qed.

Lemma rstrip_by_keep_last p s d :
  p d = false ->
  rstrip_by p (s ++ String d EmptyString) = s ++ String d EmptyString.
Proof.
  intros Hd. induction s as [|a s IH]; simpl.
  - rewrite Hd. reflexivity.
  - rewrite IH. destruct s; reflexivity.
Qed.

Lemma small_N_cases (t : N) :
  (t < 10)%N ->
  t = 0%N \/ t = 1%N \/ t = 2%N \/ t = 3%N \/ t = 4%N \/
  t = 5%N \/ t = 6%N \/ t = 7%N \/ t = 8%N \/ t = 9%N.
Proof. lia. Qed.

(** Runs a tactic for each value of a number below ten. *)
Ltac each_digit H tac :=
  apply small_N_cases in H;
  destruct H as [->|[->|[->|[->|[->|[->|[->|[->|[->| ->]]]]]]]]]; tac.

Lemma digit_char_not_percent t :
  (t < 10)%N -> Ascii.eqb (digit_char t) "%"%char = false.
Proof. intros H. each_digit H ltac:(reflexivity). Qed.

Lemma two_digits_value t u :
  (t < 10)%N -> (u < 10)%N ->
  N_of_digits (String (digit_char t) (String (digit_char u) EmptyString))
  = Some (10 * t + u)%N.
Proof.
  intros Ht Hu. each_digit Ht ltac:(each_digit Hu ltac:(reflexivity)).
Qed.

Lemma split_point_digits d rest :
  split_point (NilEmpty.string_of_uint d ++ String "."%char rest) =
  (NilEmpty.string_of_uint d, Some rest).
Proof.
  induction d; simpl; try rewrite IHd; reflexivity.
Qed.

Lemma string_of_N_nonempty_uint n :
  string_of_N n = NilEmpty.string_of_uint (N.to_uint n) /\
  N.to_uint n <> Decimal.Nil.
Proof.
  unfold string_of_N.
  assert (H : N.to_uint n <> Decimal.Nil).
  { destruct n; simpl; [discriminate | apply DecimalPos.Unsigned.to_uint_nonnil]. }
  split; [|exact H].
  destruct (N.to_uint n); [congruence | reflexivity ..].
Qed.

Lemma split_point_string_of_N n rest :
  split_point (string_of_N n ++ String "."%char rest) =
  (string_of_N n, Some rest).
Proof.
  destruct (string_of_N_nonempty_uint n) as [-> _].
  apply split_point_digits.
Qed.

Lemma N_of_digits_string_of_N n : N_of_digits (string_of_N n) = Some n.
Proof.
  destruct (string_of_N_nonempty_uint n) as [E Hn].
  unfold N_of_digits.
  assert (Hu : NilZero.uint_of_string (string_of_N n) = Some (N.to_uint n))
    by (apply NilZero.usu; exact Hn).
  rewrite Hu. simpl. rewrite DecimalN.Unsigned.of_to.
  destruct (string_of_N n) eqn:Es; [|reflexivity].
  unfold NilZero.uint_of_string in Hu. discriminate Hu.
Qed.

Lemma two_digit_bounds (a : N) :
  ((a mod 100) / 10 < 10)%N /\ (a mod 10 < 10)%N /\
  (a = (a / 100) * 100 + (10 * ((a mod 100) / 10) + a mod 10))%N.
Proof.
  assert (Ht : ((a mod 100) / 10 < 10)%N).
  { apply N.Div0.div_lt_upper_bound.
    change (10 * 10)%N with 100%N. apply N.mod_lt. discriminate. }
  assert (Hu : (a mod 10 < 10)%N) by (apply N.mod_lt; discriminate).
  split; [exact Ht|]. split; [exact Hu|].
  pose proof (N.div_mod a 100 ltac:(discriminate)) as H1.
  pose proof (N.div_mod (a mod 100) 10 ltac:(discriminate)) as H2.
  assert (H3 : ((a mod 100) mod 10 = a mod 10)%N).
  { change 100%N with (10 * 10)%N.
    rewrite N.Div0.mod_mul_r, (N.mul_comm 10), N.Div0.mod_add.
    apply N.Div0.mod_mod. }
  lia.
Qed.

(** The digits printed for [h] hundredths read back as [|h| / 10^2]. *)
Lemma decimal_of_fixed2_abs h :
  decimal_of_string (fixed2_abs h) = Some (Z.to_N (Z.abs h), 2%nat).
Proof.
  unfold fixed2_abs, decimal_of_string.
  set (a := Z.to_N (Z.abs h)).
  change (string_of_N (a / 100) ++ "." ++ ?r)
    with (string_of_N (a / 100) ++ String "."%char r).
  rewrite split_point_string_of_N, N_of_digits_string_of_N.
  destruct (two_digit_bounds a) as (Ht & Hu & Hdec).
  rewrite (two_digits_value _ _ Ht Hu).
  cbn [String.length]. change (10 ^ N.of_nat 2)%N with 100%N.
  rewrite <- Hdec. reflexivity.
Qed.

Lemma fixed2_abs_last h :
  exists pre d,
    fixed2_abs h = pre ++ String d EmptyString /\
    Ascii.eqb d "%"%char = false.
Proof.
  unfold fixed2_abs. set (a := Z.to_N (Z.abs h)).
  exists (string_of_N (a / 100) ++ "." ++
          String (digit_char (a mod 100 / 10)) EmptyString),
         (digit_char (a mod 10)).
  split.
  - rewrite !append_assoc_str. reflexivity.
  - apply digit_char_not_percent. apply N.mod_lt. discriminate.
Qed.

Lemma strip_percent_signed sgn h :
  Ascii.eqb sgn "%"%char = false ->
  strip_percent (String sgn (fixed2_abs h ++ "%")) = String sgn (fixed2_abs h).
Proof.
  intros Hs. unfold strip_percent, strip_by.
  cbn [lstrip_by]. rewrite Hs.
  destruct (fixed2_abs_last h) as (pre & d & -> & Hd).
  change (String sgn ((pre ++ String d EmptyString) ++ "%"))
    with ((String sgn (pre ++ String d EmptyString)) ++ String "%"%char EmptyString).
  rewrite rstrip_by_drop_last by reflexivity.
  change (String sgn (pre ++ String d EmptyString))
    with ((String sgn pre) ++ String d EmptyString).
  apply rstrip_by_keep_last. exact Hd.
Qed.

Lemma round_half_even_sign x :
  ((x < 0)%Q -> (round_half_even x <= 0)%Z) /\
  ((0 <= x)%Q -> (0 <= round_half_even x)%Z).
Proof.
  unfold round_half_even.
  pose proof (Qfloor_le x) as Hlo.
  pose proof (Qlt_floor x) as Hhi.
  split; intros Hx.
  - assert (Hf : (Qfloor x < 0)%Z).
    { rewrite Zlt_Qlt. eapply Qle_lt_trans; [exact Hlo | exact Hx]. }
    destruct (Qcompare _ _); [destruct (Z.even _)| |]; lia.
  - assert (Hf : (0 <= Qfloor x)%Z).
    { change 0%Z with (Qfloor 0). apply Qfloor_resp_le. exact Hx. }
    destruct (Qcompare _ _); [destruct (Z.even _)| |]; lia.
Qed.

Lemma round_half_even_near x :
  (Qabs (inject_Z (round_half_even x) - x) <= 1 # 2)%Q.
Proof.
  unfold round_half_even.
  pose proof (Qfloor_le x) as Hlo.
  pose proof (Qlt_floor x) as Hhi.
  rewrite inject_Z_plus in Hhi. change (inject_Z 1) with 1%Q in Hhi.
  set (f := inject_Z (Qfloor x)) in *.
  apply Qabs_Qle_condition.
  destruct (Qcompare (x - f) (1 # 2)) eqn:E.
  - apply Qeq_alt in E.
    destruct (Z.even (Qfloor x)).
    + fold f. split; lra.
    + rewrite inject_Z_plus. change (inject_Z 1) with 1%Q. fold f.
      split; lra.
  - apply Qlt_alt in E. fold f. split; lra.
  - apply Qgt_alt in E. rewrite inject_Z_plus.
    change (inject_Z 1) with 1%Q. fold f. split; lra.
Qed.

Lemma exact_abs_pos m e : (0 < exact_abs m e)%Q.
Proof.
  unfold exact_abs.
  apply Qmult_lt_0_compat; [reflexivity|].
  apply Qpower_0_lt. reflexivity.
Qed.

(** The hundredths printed for a finite float are within half a
    hundredth of its exact value. *)
Lemma hundredths_near x :
  (0 <= x)%Q ->
  (Qabs (inject_Z (Z.of_N (Z.to_N (Z.abs (hundredths x)))) / 100 - x)
     <= 1 # 200)%Q.
Proof.
  intros Hx. unfold hundredths.
  assert (H0 : (0 <= round_half_even (x * 100))%Z).
  { apply round_half_even_sign.
    setoid_replace 0%Q with (0 * 100)%Q by reflexivity.
    apply Qmult_le_r; [reflexivity | exact Hx]. }
  rewrite Z.abs_eq, Z2N.id by exact H0.
  pose proof (round_half_even_near (x * 100)) as H.
  apply Qabs_Qle_condition in H. apply Qabs_Qle_condition.
  set (r := inject_Z (round_half_even (x * 100))) in *.
  destruct H as [H1 H2].
  split.
  - apply Qmult_le_r with (z := 100%Q); [reflexivity|].
    field_simplify. field_simplify in H1. lra.
  - apply Qmult_le_r with (z := 100%Q); [reflexivity|].
    field_simplify. field_simplify in H2. lra.
Qed.

(** What [format(x, '+.2f')] looks like: for a finite float a sign, the
    integer part, a point and two digits, denoting a number within half
    a hundredth of the float; the zeros print their sign; NaN and the
    infinities are words. *)
Lemma format_signed_2f_shape x :
  match x with
  | S754_finite s m e =>
      exists ip t u,
        format_signed_2f x =
          String (if s then "-" else "+")%char
                 (string_of_N ip ++ "." ++
                  String (digit_char t)
                    (String (digit_char u) EmptyString)) /\
        (t < 10)%N /\ (u < 10)%N /\
        (Qabs (inject_Z (Z.of_N (ip * 100 + (10 * t + u))) / 100
               - exact_abs m e) <= 1 # 200)%Q
  | S754_zero s => format_signed_2f x = if s then "-0.00" else "+0.00"
  | S754_infinity s => format_signed_2f x = if s then "-inf" else "+inf"
  | S754_nan => format_signed_2f x = "+nan"
  end.
Proof.
  destruct x as [s|s| |s m e]; try (destruct s; reflexivity); try reflexivity.
  set (a := Z.to_N (Z.abs (hundredths (exact_abs m e)))).
  destruct (two_digit_bounds a) as (Ht & Hu & Hdec).
  exists (a / 100)%N, (a mod 100 / 10)%N, (a mod 10)%N.
  split; [|split; [exact Ht | split; [exact Hu|]]].
  - unfold format_signed_2f, format_fixed2, fixed2_abs. fold a.
    destruct s; reflexivity.
  - rewrite <- Hdec. unfold a. apply hundredths_near.
    apply Qlt_le_weak, exact_abs_pos.
Qed.

(** Reading back what [f"{x:+.2f}%"] printed gives [round(x, 2)]. *)
Lemma float_of_signed_2f x :
  float_of_string (strip_percent (format_signed_2f x ++ "%")) =
  Ok (round2 x).
Proof.
  destruct x as [s|s| |s m e]; try (destruct s; reflexivity); try reflexivity.
  unfold format_signed_2f, format_fixed2, round2.
  set (h := hundredths (exact_abs m e)).
  destruct s; cbn [sign_text append].
  - change (String "-"%char (fixed2_abs h) ++ "%")
      with (String "-"%char (fixed2_abs h ++ "%")).
    rewrite strip_percent_signed by reflexivity.
    unfold float_of_string. rewrite decimal_of_fixed2_abs. reflexivity.
  - change (String "+"%char (fixed2_abs h) ++ "%")
      with (String "+"%char (fixed2_abs h ++ "%")).
    rewrite strip_percent_signed by reflexivity.
    unfold float_of_string. rewrite decimal_of_fixed2_abs. reflexivity.
Qed.

(** *** The quote, case by case *)

Lemma collect_quote_fast (o : Outcomes) fast p q :
  fast_info o = Ok fast ->
  fast_get "last_price" fast = Ok (Some p) ->
  fast_get "previous_close" fast = Ok (Some q) ->
  float_is_zero (value p) = false ->
  collect_quote o =
    (Some p,
     if float_is_zero (value q) then "0%"
     else change_percent (value p) (value q)).
Proof.
  intros Hf Hp Hq Hz. unfold collect_quote, read_quote.
  rewrite Hf, Hp, Hq. cbn [is_zero]. rewrite Hz. cbv iota beta.
  rewrite Hz. destruct (float_is_zero (value q)); reflexivity.
Qed.

Lemma collect_quote_fallback (o : Outcomes) fast p prev
      closes c2 c1 :
  fast_info o = Ok fast ->
  fast_get "last_price" fast = Ok (Some p) ->
  float_is_zero (value p) = true ->
  fast_get "previous_close" fast = Ok prev ->
  history_5d o = Ok (closes ++ [c2; c1])%list ->
  collect_quote o =
    (Some (NumPy c1),
     if float_is_zero c1 || float_is_zero c2 then "0%"
     else change_percent c1 c2).
Proof.
  intros Hf Hp Hz Hq Hh. unfold collect_quote, read_quote.
  rewrite Hf, Hp, Hq. cbn [is_zero]. rewrite Hz, Hh.
  rewrite rev_app_distr. cbn [rev app]. cbv iota beta. cbn [value].
  destruct (float_is_zero c1), (float_is_zero c2); reflexivity.
Qed.

(** Whenever the change percent is not the default text, the quote came
    about in one of the two ways above, with both numbers other than
    zero. *)
Lemma collect_quote_cases (o : Outcomes) :
  snd (collect_quote o) = "0%" \/
  (exists fast p q,
     fast_info o = Ok fast /\
     fast_get "last_price" fast = Ok (Some p) /\
     fast_get "previous_close" fast = Ok (Some q) /\
     float_is_zero (value p) = false /\
     float_is_zero (value q) = false /\
     collect_quote o = (Some p, change_percent (value p) (value q))) \/
  (exists fast p prev closes c2 c1,
     fast_info o = Ok fast /\
     fast_get "last_price" fast = Ok (Some p) /\
     float_is_zero (value p) = true /\
     fast_get "previous_close" fast = Ok prev /\
     history_5d o = Ok (closes ++ [c2; c1])%list /\
     float_is_zero c1 = false /\
     float_is_zero c2 = false /\
     collect_quote o = (Some (NumPy c1), change_percent c1 c2)).
Proof.
  destruct (fast_info o) as [fast|e] eqn:Hf;
    [|left; unfold collect_quote, read_quote; rewrite Hf; reflexivity].
  destruct (fast_get "last_price" fast) as [price|e] eqn:Hp;
    [|left; unfold collect_quote, read_quote; rewrite Hf, Hp; reflexivity].
  destruct (fast_get "previous_close" fast) as [prev|e] eqn:Hq;
    [|left; unfold collect_quote, read_quote; rewrite Hf, Hp, Hq;
       reflexivity].
  destruct price as [p|].
  2:{ left. unfold collect_quote, read_quote. rewrite Hf, Hp, Hq.
      destruct prev; reflexivity. }
  destruct (float_is_zero (value p)) eqn:Hz.
  - (* the fallback *)
    destruct (history_5d o) as [h|e] eqn:Hh.
    2:{ left. unfold collect_quote, read_quote. rewrite Hf, Hp, Hq.
        cbn [is_zero]. rewrite Hz, Hh. reflexivity. }
    destruct (rev h) as [|c1 [|c2 rest]] eqn:Hr.
    + left. unfold collect_quote, read_quote. rewrite Hf, Hp, Hq.
      cbn [is_zero]. rewrite Hz, Hh, Hr.
      destruct prev as [q|]; [|reflexivity].
      rewrite Hz. reflexivity.
    + left. unfold collect_quote, read_quote. rewrite Hf, Hp, Hq.
      cbn [is_zero]. rewrite Hz, Hh, Hr. reflexivity.
    + assert (Eh : h = (rev rest ++ [c2; c1])%list).
      { rewrite <- (rev_involutive h), Hr. cbn [rev].
        rewrite <- app_assoc. reflexivity. }
      pose proof (collect_quote_fallback o fast p prev (rev rest) c2 c1
                    Hf Hp Hz Hq ltac:(rewrite Hh, Eh; reflexivity)) as Hc.
      destruct (float_is_zero c1) eqn:Z1;
        [left; rewrite Hc; reflexivity|].
      destruct (float_is_zero c2) eqn:Z2;
        [left; rewrite Hc; reflexivity|].
      right. right. exists fast, p, prev, (rev rest), c2, c1.
      rewrite <- Eh. auto 10.
  - destruct prev as [q|].
    2:{ left. unfold collect_quote, read_quote. rewrite Hf, Hp, Hq.
        cbn [is_zero]. rewrite Hz. reflexivity. }
    pose proof (collect_quote_fast o fast p q Hf Hp Hq Hz) as Hc.
    destruct (float_is_zero (value q)) eqn:Zq;
      [left; rewrite Hc; reflexivity|].
    right. left. exists fast, p, q. auto 10.
Qed.

(** The change percent is part of the record as it was computed. *)
Lemma record_basic_info {L : PyLib} cfg o tid old r :
  get_stock_data cfg o tid old = Some r ->
  exists p pct,
    fst (collect_quote o) = Some p /\
    float_of_string (strip_percent (snd (collect_quote o))) = Ok pct /\
    (float_is_zero (fadd float_1 (fdiv pct float_100)) = true ->
     exists x, p = NumPy x) /\
    json_path ["basicInfo"] r =
      Some (JObj [("price", JStr (format_2f (value p)));
                  ("change",
                   JStr (format_signed_2f
                           (fsub (value p)
                              (fdiv (value p)
                                 (fadd float_1 (fdiv pct float_100))))));
                  ("changePercent", JStr (snd (collect_quote o)))]).
Proof.
  intros H.
  apply get_stock_data_Some in H as (hist & name & ai & _ & _ & _ & Hm).
  apply merge_Ok in Hm.
  destruct Hm as (? & ? & ps & ch & ? & ? & ? & ? & ? & ? & ? & ? & ? & Hm).
  destruct Hm as (_ & _ & Hps & Hch & _ & ->).
  unfold format_price in Hps. unfold derived_change in Hch.
  destruct (fst (collect_quote o)) as [p|]; [|discriminate].
  injection Hps as <-.
  split_bind Hch. rename a into pct.
  split_bind Hch. rename a into quotient.
  injection Hch as <-.
  exists p, pct. split; [reflexivity|]. split; [exact Ha|].
  unfold truediv in Ha0.
  destruct p as [v|v]; cbn [value].
  - destruct (float_is_zero (fadd float_1 (fdiv pct float_100)));
      [discriminate|].
    injection Ha0 as <-. split; [discriminate | reflexivity].
  - injection Ha0 as <-. split; [eauto | reflexivity].
Qed.

(** C8.  The change percent of a quote.  When the quote snapshot gives a
    last price other than zero and a previous close, or else the five-day
    window gives two closes, and both numbers are other than zero, the
    change percent is the float [(price - prev) / prev * 100] printed by
    the format [+.2f] and followed by the percent sign; in every other
    case it is the text 0%.  For a finite float the format gives a sign,
    digits, a point and two digits, the decimal nearest to the float;
    NaN and the infinities, which count as numbers other than zero, give
    +nan%, +inf% or -inf%.  Read back, the text is [round(x, 2)].  The
    merged record carries the text as it is.  For 550.00 after 540.00
    the text is +1.85%. *)
Theorem change_percent_spec {L : PyLib} :
  (forall (o : Outcomes) fast p q,
     fast_info o = Ok fast ->
     fast_get "last_price" fast = Ok (Some p) ->
     fast_get "previous_close" fast = Ok (Some q) ->
     float_is_zero (value p) = false ->
     collect_quote o =
       (Some p,
        if float_is_zero (value q) then "0%"
        else change_percent (value p) (value q))) /\
  (forall (o : Outcomes) fast p prev closes c2 c1,
     fast_info o = Ok fast ->
     fast_get "last_price" fast = Ok (Some p) ->
     float_is_zero (value p) = true ->
     fast_get "previous_close" fast = Ok prev ->
     history_5d o = Ok (closes ++ [c2; c1])%list ->
     collect_quote o =
       (Some (NumPy c1),
        if float_is_zero c1 || float_is_zero c2 then "0%"
        else change_percent c1 c2)) /\
  (forall o : Outcomes,
     snd (collect_quote o) = "0%" \/
     (exists fast p q,
        fast_info o = Ok fast /\
        fast_get "last_price" fast = Ok (Some p) /\
        fast_get "previous_close" fast = Ok (Some q) /\
        float_is_zero (value p) = false /\
        float_is_zero (value q) = false /\
        collect_quote o = (Some p, change_percent (value p) (value q))) \/
     (exists fast p prev closes c2 c1,
        fast_info o = Ok fast /\
        fast_get "last_price" fast = Ok (Some p) /\
        float_is_zero (value p) = true /\
        fast_get "previous_close" fast = Ok prev /\
        history_5d o = Ok (closes ++ [c2; c1])%list /\
        float_is_zero c1 = false /\
        float_is_zero c2 = false /\
        collect_quote o = (Some (NumPy c1), change_percent c1 c2))) /\
  (forall p q : spec_float,
     let x := fmul (fdiv (fsub p q) q) float_100 in
     change_percent p q = format_signed_2f x ++ "%" /\
     float_of_string (strip_percent (change_percent p q)) = Ok (round2 x) /\
     match x with
     | S754_finite s m e =>
         exists ip t u,
           format_signed_2f x =
             String (if s then "-" else "+")%char
                    (string_of_N ip ++ "." ++
                     String (digit_char t)
                       (String (digit_char u) EmptyString)) /\
           (t < 10)%N /\ (u < 10)%N /\
           (Qabs (inject_Z (Z.of_N (ip * 100 + (10 * t + u))) / 100
                  - exact_abs m e) <= 1 # 200)%Q
     | S754_zero s => format_signed_2f x = if s then "-0.00" else "+0.00"
     | S754_infinity s => format_signed_2f x = if s then "-inf" else "+inf"
     | S754_nan => format_signed_2f x = "+nan"
     end) /\
  (forall cfg o tid old r,
     get_stock_data cfg o tid old = Some r ->
     json_path ["basicInfo"; "changePercent"] r =
       Some (JStr (snd (collect_quote o)))) /\
  change_percent (dec 550 0) (dec 540 0) = "+1.85%".
Proof.
  split; [exact collect_quote_fast|].
  split; [exact collect_quote_fallback|].
  split; [exact collect_quote_cases|].
  split; [|split].
  - intros p q x. split; [reflexivity|]. split.
    + apply float_of_signed_2f.
    + apply format_signed_2f_shape.
  - intros cfg o tid old r H.
    destruct (record_basic_info _ _ _ _ _ H) as (p & pct & _ & _ & _ & Hr).
    cbn [json_path] in Hr |- *.
    destruct r as [| | | | | |d]; try discriminate Hr.
    destruct (dict_lookup "basicInfo" d) as [b|]; [|discriminate Hr].
    injection Hr as ->. reflexivity.
  - vm_compute. reflexivity.
Qed.

(** The snapshot has no last price and the last row of the five-day
    window has no close yet (NaN) after a close of 540: NaN is a number
    other than zero, the change percent is +nan%, neither a number of two
    decimals nor the text 0%, and a record is built with it. *)
Lemma nan_close_is_neither_case :
  collect_quote ex_outcomes_nan_close = (Some (NumPy S754_nan), "+nan%") /\
  exists r,
    get_stock_data ex_settings ex_outcomes_nan_close "2330" None = Some r /\
    json_path ["basicInfo"] r =
      Some (JObj [("price", JStr "nan");
                  ("change", JStr "+nan");
                  ("changePercent", JStr "+nan%")]).
Proof.
  split; [vm_compute; reflexivity|].
  eexists. split; vm_compute; reflexivity.
Qed.

(* ================================================================= *)
(** ** The basic-info block *)

(** The quote depends on the quote snapshot and the five-day window
    only. *)
Lemma collect_quote_ext (o o' : Outcomes) :
  fast_info o' = fast_info o ->
  history_5d o' = history_5d o ->
  collect_quote o' = collect_quote o.
Proof.
  intros Hf Hh. unfold collect_quote, read_quote. rewrite Hf, Hh.
  reflexivity.
Qed.

(** What [change_pct] reads back as: nought, or the rounded percentage. *)
Lemma change_pct_value (o : Outcomes) :
  exists pct,
    float_of_string (strip_percent (snd (collect_quote o))) = Ok pct /\
    ((snd (collect_quote o) = "0%" /\ pct = S754_zero false) \/
     exists p q,
       read_quote o = (Some p, Ok (Some q)) /\
       snd (collect_quote o) = change_percent (value p) (value q) /\
       pct = round2 (fmul (fdiv (fsub (value p) (value q)) (value q))
                          float_100)).
Proof.
  unfold collect_quote.
  destruct (read_quote o) as [price [prev|e]] eqn:Er; cbn [snd].
  2:{ exists (S754_zero false). auto. }
  destruct price as [p|]; [destruct prev as [q|]|]; cbn [snd];
    try (exists (S754_zero false); auto; fail).
  destruct (negb (float_is_zero (value p))
            && negb (float_is_zero (value q))); cbn [snd].
  - eexists. split; [apply float_of_signed_2f|].
    right. exists p, q. auto.
  - exists (S754_zero false). auto.
Qed.

(** C9.  The basic-info block of a merged record is made of the quote of
    this run alone: the price printed by [.2f], the change percent text,
    and as absolute change the float [price - price / (1 + pct/100)]
    printed by [+.2f], where [pct] is the float read back from the
    change percent text, that is the percentage already rounded to two
    decimals (or nought), not [price - prev].  The divisor is zero only
    under a price that is a numpy.float64, for which the quotient is an
    infinity and the change prints as a word.  Two runs with the same
    quote produce the same block whatever the models answer. *)
Theorem change_back_derived {L : PyLib} cfg o tid old r :
  get_stock_data cfg o tid old = Some r ->
  (exists p pct,
     fst (collect_quote o) = Some p /\
     float_of_string (strip_percent (snd (collect_quote o))) = Ok pct /\
     json_path ["basicInfo"] r =
       Some (JObj [("price", JStr (format_2f (value p)));
                   ("change",
                    JStr (format_signed_2f
                            (fsub (value p)
                               (fdiv (value p)
                                  (fadd float_1 (fdiv pct float_100))))));
                   ("changePercent", JStr (snd (collect_quote o)))]) /\
     (float_is_zero (fadd float_1 (fdiv pct float_100)) = true ->
      exists x, p = NumPy x) /\
     ((snd (collect_quote o) = "0%" /\ pct = S754_zero false) \/
      exists q,
        read_quote o = (Some p, Ok (Some q)) /\
        snd (collect_quote o) = change_percent (value p) (value q) /\
        pct = round2 (fmul (fdiv (fsub (value p) (value q)) (value q))
                           float_100))) /\
  (forall cfg' o' tid' old' r',
     fast_info o' = fast_info o ->
     history_5d o' = history_5d o ->
     get_stock_data cfg' o' tid' old' = Some r' ->
     json_path ["basicInfo"] r' = json_path ["basicInfo"] r).
Proof.
  intros H. split.
  - destruct (record_basic_info _ _ _ _ _ H) as (p & pct & Hp & Hpct & Hd & Hr).
    exists p, pct. repeat split; try assumption.
    destruct (change_pct_value o) as (pct' & Hpct' & Hcase).
    rewrite Hpct in Hpct'. injection Hpct' as <-.
    destruct Hcase as [Hz|(p' & q & Hrq & Hcp & Hv)]; [left; exact Hz|].
    right. exists q.
    assert (p' = p).
    { unfold collect_quote in Hp. rewrite Hrq in Hp.
      destruct (negb (float_is_zero (value p'))
                && negb (float_is_zero (value q)));
        cbn [fst] in Hp; congruence. }
    subst p'. auto.
  - intros cfg' o' tid' old' r' Hf Hh H'.
    destruct (record_basic_info _ _ _ _ _ H) as (p & pct & Hp & Hpct & _ & Hr).
    destruct (record_basic_info _ _ _ _ _ H')
      as (p' & pct' & Hp' & Hpct' & _ & Hr').
    rewrite (collect_quote_ext _ _ Hf Hh) in Hp', Hpct', Hr'.
    rewrite Hp in Hp'. injection Hp' as <-.
    rewrite Hpct in Hpct'. injection Hpct' as <-.
    rewrite Hr, Hr'. reflexivity.
Qed.

(** For 550.00 after 540.00 the percentage is rounded to 1.85 and the
    change derived from it is +9.99; [price - prev] would print +10.00. *)
Lemma change_back_derived_witness :
  json_path ["basicInfo"] ex_merged =
    Some (JObj [("price", JStr "550.00");
                ("change", JStr "+9.99");
                ("changePercent", JStr "+1.85%")]) /\
  format_signed_2f (fsub (dec 550 0) (dec 540 0)) = "+10.00".
Proof.
  split; [|vm_compute; reflexivity].
  destruct (proj1 (change_back_derived (L := ex_lib) ex_settings
                     (ex_outcomes (Ok ex_answer_text)) "2330.TW"
                     (Some ex_previous) ex_merged
                     ltac:(vm_compute; reflexivity)))
    as (p & pct & Hp & Hpct & Hr & _).
  rewrite Hr. clear Hr.
  vm_compute in Hp. injection Hp as <-.
  vm_compute in Hpct. injection Hpct as <-.
  vm_compute. reflexivity.
Defined.

(** The snapshot has no last price and the five-day window closes at
    0.004 after 100: the change percent prints as -100.00%, the divisor
    [1 + pct/100] is zero, the price is a numpy.float64, and the record is
    built with the change -inf.  When the last row of the window has no
    close (NaN) the record is built with the change +nan.  Neither is a
    number of two decimals. *)
Lemma change_is_not_always_a_number :
  (collect_quote ex_outcomes_collapse_window =
     (Some (NumPy (dec 4 3)), "-100.00%") /\
   exists r,
     get_stock_data ex_settings ex_outcomes_collapse_window "2330" None
       = Some r /\
     json_path ["basicInfo"] r =
       Some (JObj [("price", JStr "0.00");
                   ("change", JStr "-inf");
                   ("changePercent", JStr "-100.00%")])) /\
  (exists r,
     get_stock_data ex_settings ex_outcomes_nan_close "2330" None = Some r /\
     json_path ["basicInfo"; "change"] r = Some (JStr "+nan")).
Proof.
  split; [split; [vm_compute; reflexivity|]|];
    eexists; split; vm_compute; reflexivity.
Qed.

(* ================================================================= *)
(** ** More on the model catalogue *)

Lemma desc_antisym a b : desc a b -> desc b a -> a = b.
Proof. unfold desc. intros H1 H2. apply String.leb_antisym; assumption. Qed.

Lemma desc_refl a : desc a a.
Proof.
  unfold desc. destruct (String.leb_total a a) as [H|H]; exact H.
Qed.

(** A descending list is determined by its elements. *)
Lemma descending_unique l1 :
  forall l2,
    StronglySorted desc l1 -> StronglySorted desc l2 ->
    Permutation l1 l2 -> l1 = l2.
Proof.
  induction l1 as [|a l1 IH]; intros l2 H1 H2 Hp.
  - apply Permutation_nil in Hp. subst. reflexivity.
  - destruct l2 as [|b l2].
    + apply Permutation_sym, Permutation_nil in Hp. discriminate.
    + inversion H1 as [|? ? Hs1 Ha]. inversion H2 as [|? ? Hs2 Hb]. subst.
      assert (Hab : a = b).
      { assert (Hina : In a (b :: l2))
          by (apply (Permutation_in _ Hp); left; reflexivity).
        assert (Hinb : In b (a :: l1))
          by (apply (Permutation_in _ (Permutation_sym Hp)); left; reflexivity).
        destruct Hina as [E|Hina]; [congruence|].
        destruct Hinb as [E|Hinb]; [congruence|].
        rewrite Forall_forall in Ha, Hb.
        apply desc_antisym; [apply Ha; exact Hinb | apply Hb; exact Hina]. }
      subst b. f_equal.
      apply IH; try assumption.
      apply Permutation_cons_inv with (a := a). exact Hp.
Qed.

Lemma sort_desc_of_permutation l1 l2 :
  Permutation l1 l2 -> sort_desc l1 = sort_desc l2.
Proof.
  intros Hp. apply descending_unique; try apply sort_desc_sorted.
  apply perm_trans with l1; [apply sort_desc_perm|].
  apply perm_trans with l2; [exact Hp|].
  apply Permutation_sym, sort_desc_perm.
Qed.

Lemma filter_permutation {A} (f : A -> bool) l1 l2 :
  Permutation l1 l2 -> Permutation (filter f l1) (filter f l2).
Proof.
  induction 1 as [|x l1 l2 _ IH|x y l|l1 l2 l3 _ IH1 _ IH2]; simpl.
  - apply perm_nil.
  - destruct (f x); [apply perm_skip|]; exact IH.
  - destruct (f x), (f y); try apply Permutation_refl. apply perm_swap.
  - apply perm_trans with (filter f l2); assumption.
Qed.

(** X1.  The order in which the service lists its models has no
    influence on the catalogue. *)
Theorem get_best_models_order_irrelevant listed listed' :
  Permutation listed listed' ->
  get_best_models (Ok listed) = get_best_models (Ok listed').
Proof.
  intros Hp. unfold get_best_models. simpl.
  rewrite (sort_desc_of_permutation
             (map name (filter (fun m => in_str_list "generateContent"
                                  (supported_generation_methods m)) listed))
             (map name (filter (fun m => in_str_list "generateContent"
                                  (supported_generation_methods m)) listed'))).
  - reflexivity.
  - apply Permutation_map, filter_permutation. exact Hp.
Qed.

Lemma get_best_models_order_irrelevant_witness :
  get_best_models
    (Ok [ {| name := "models/gemini-1.5-flash";
             supported_generation_methods := ["generateContent"] |};
          {| name := "models/gemini-2.0-flash-exp";
             supported_generation_methods := ["generateContent"] |} ]) =
  get_best_models
    (Ok [ {| name := "models/gemini-2.0-flash-exp";
             supported_generation_methods := ["generateContent"] |};
          {| name := "models/gemini-1.5-flash";
             supported_generation_methods := ["generateContent"] |} ]).
Proof.
  apply get_best_models_order_irrelevant. apply perm_swap.
Defined.

Lemma filter_strongly_sorted {A} (R : A -> A -> Prop) (f : A -> bool) l :
  StronglySorted R l -> StronglySorted R (filter f l).
Proof.
  induction 1 as [|a l Hs IH Ha]; simpl.
  - constructor.
  - destruct (f a); [|exact IH].
    constructor; [exact IH|].
    rewrite Forall_forall in *. intros x Hx.
    apply filter_In in Hx as [Hx _]. apply Ha. exact Hx.
Qed.

Lemma filter_Forall_true {A} (f : A -> bool) l :
  Forall (fun x => f x = true) (filter f l).
Proof.
  apply Forall_forall. intros x Hx. apply filter_In in Hx as [_ Hx]. exact Hx.
Qed.

(** X2.  A catalogue other than the default list falls into three runs,
    experimental, pro and flash, each in descending order of name, and
    lists only models that were discovered with generateContent. *)
Theorem get_best_models_tiers_sorted (listed : list ModelInfo) :
  let capable :=
    map name (filter (fun m => in_str_list "generateContent"
                                 (supported_generation_methods m)) listed) in
  let r := get_best_models (Ok listed) in
  r = defaults \/
  exists e p f,
    r = (e ++ p ++ f)%list /\
    Forall (fun m => is_exp m = true) e /\
    Forall (fun m => is_pro m = true) p /\
    Forall (fun m => is_flash m = true) f /\
    StronglySorted desc e /\ StronglySorted desc p /\ StronglySorted desc f /\
    Forall (fun m => In m capable) r.
Proof.
  intros capable r. unfold r, get_best_models. simpl. fold capable.
  set (sorted := sort_desc capable).
  destruct (filter is_exp sorted ++ filter is_pro sorted
              ++ filter is_flash sorted)%list as [|m0 rest] eqn:E;
    [left; reflexivity|].
  right. rewrite <- E.
  exists (filter is_exp sorted), (filter is_pro sorted),
         (filter is_flash sorted).
  pose proof (sort_desc_sorted capable) as Hs. fold sorted in Hs.
  repeat split; try apply filter_Forall_true;
    try (apply filter_strongly_sorted; exact Hs).
  rewrite !Forall_app. repeat split;
    apply Forall_forall; intros m Hm; apply filter_In in Hm as [Hm _];
    apply (Permutation_in _ (sort_desc_perm capable)); exact Hm.
Qed.

Lemma count_occ_filter (f : string -> bool) l m :
  count_occ string_dec (filter f l) m =
  if f m then count_occ string_dec l m else 0.
Proof.
  induction l as [|x l IH]; simpl.
  - destruct (f m); reflexivity.
  - destruct (f x) eqn:Ex; simpl.
    + destruct (string_dec x m) as [->|Hne].
      * rewrite IH, Ex. reflexivity.
      * rewrite IH. reflexivity.
    + destruct (string_dec x m) as [->|Hne].
      * rewrite IH, Ex. reflexivity.
      * exact IH.
Qed.

(** X3.  When the discovered names are distinct, a model stands at most
    twice in the catalogue, and twice exactly when it is in the catalogue
    and its name has both pro and flash in it and not exp: such a model is
    tried again after it failed. *)
Theorem get_best_models_repeats (listed : list ModelInfo) (m : string) :
  NoDup (map name (filter (fun m => in_str_list "generateContent"
                                      (supported_generation_methods m))
                          listed)) ->
  let r := get_best_models (Ok listed) in
  count_occ string_dec r m <= 2 /\
  (count_occ string_dec r m = 2 <->
   In m r /\ is_pro m = true /\ is_flash m = true).
Proof.
  intros Hnd r. unfold r, get_best_models. simpl.
  set (capable := map name _) in *.
  set (sorted := sort_desc capable).
  assert (Hc : count_occ string_dec sorted m <= 1).
  { apply NoDup_count_occ.
    apply (Permutation_NoDup (Permutation_sym (sort_desc_perm capable))).
    exact Hnd. }
  destruct (filter is_exp sorted ++ filter is_pro sorted
              ++ filter is_flash sorted)%list as [|m0 rest] eqn:E.
  - (* the default list *)
    unfold defaults. cbn [count_occ].
    destruct (string_dec "models/gemini-1.5-pro" m) as [E1|H1],
             (string_dec "models/gemini-1.5-flash" m) as [E2|H2].
    + exfalso. congruence.
    + subst m. split; [lia|]. split; [lia|].
      intros (_ & _ & H). vm_compute in H. discriminate H.
    + subst m. split; [lia|]. split; [lia|].
      intros (_ & H & _). vm_compute in H. discriminate H.
    + split; [lia|]. split; [lia|].
      intros ([H|[H|[]]] & _); congruence.
  - rewrite <- E. clear E m0 rest.
    rewrite (count_occ_In string_dec).
    rewrite !count_occ_app, !count_occ_filter.
    unfold is_pro, is_flash, is_exp.
    destruct (contains "exp" m), (contains "pro" m), (contains "flash" m);
      simpl; split; try lia; split; try lia;
      intros (_ & H1 & H2); discriminate.
Qed.

Lemma get_best_models_repeats_witness :
  count_occ string_dec
    (get_best_models
       (Ok [ {| name := "models/gemini-2.0-pro-flash";
                supported_generation_methods := ["generateContent"] |} ]))
    "models/gemini-2.0-pro-flash" = 2.
Proof.
  apply (proj2 (get_best_models_repeats
                  [ {| name := "models/gemini-2.0-pro-flash";
                       supported_generation_methods := ["generateContent"] |} ]
                  "models/gemini-2.0-pro-flash"
                  ltac:(repeat constructor; simpl; tauto))).
  split; [left; reflexivity | split; reflexivity].
Defined.

(* ================================================================= *)
(** ** More on the quote *)

(** X4.  When the quote snapshot cannot be had, or its last price cannot
    be read, the ticker is given up; the five-day window is not tried. *)
Theorem fast_quote_failure_gives_up {L : PyLib} cfg o tid old :
  (raised (fast_info o) = true \/
   exists fast, fast_info o = Ok fast /\
                raised (fast_get "last_price" fast) = true) ->
  get_stock_data cfg o tid old = None.
Proof.
  intros H. apply zero_price_returns_None.
  unfold collect_quote, read_quote.
  destruct H as [H|(fast & -> & H)].
  - destruct (fast_info o); [discriminate H | reflexivity].
  - destruct (fast_get "last_price" fast); [discriminate H | reflexivity].
Qed.

Lemma fast_quote_failure_gives_up_witness :
  history_5d ex_outcomes_fast_raises = Ok [dec 540 0; dec 550 0] /\
  get_stock_data ex_settings ex_outcomes_fast_raises "2330"
                 (Some ex_previous) = None.
Proof.
  split; [reflexivity|].
  apply fast_quote_failure_gives_up. left. reflexivity.
Defined.

(** X5.  When the snapshot gives a last price other than zero, the price
    and the change percent do not depend on the five-day window. *)
Theorem fallback_unused_when_quoted (o o' : Outcomes) fast price :
  fast_info o = Ok fast ->
  fast_get "last_price" fast = Ok price ->
  is_zero price = false ->
  fast_info o' = fast_info o ->
  collect_quote o' = collect_quote o.
Proof.
  intros Hf Hp Hz Hf'. unfold collect_quote, read_quote.
  rewrite Hf', Hf, Hp.
  destruct (fast_get "previous_close" fast); [|reflexivity].
  rewrite Hz. reflexivity.
Qed.

Lemma fallback_unused_when_quoted_witness :
  collect_quote ex_outcomes_other_window =
    (Some (PyFloat (dec 550 0)), "+1.85%").
Proof.
  rewrite (fallback_unused_when_quoted
             (ex_outcomes (Raise ProviderError)) ex_outcomes_other_window
             _ (Some (PyFloat (dec 550 0))) eq_refl eq_refl eq_refl eq_refl).
  vm_compute. reflexivity.
Defined.

(** *** Signs of float results *)

Lemma shr_1_nonneg mrs : (0 <= shr_m mrs -> 0 <= shr_m (shr_1 mrs))%Z.
Proof.
  destruct mrs as [m r s]. cbn [shr_m shr_1].
  destruct m as [|[p|p|]|[p|p|]]; cbn [shr_m]; lia.
Qed.

Lemma iter_pos_shr_1_nonneg p :
  forall mrs, (0 <= shr_m mrs -> 0 <= shr_m (iter_pos shr_1 p mrs))%Z.
Proof.
  induction p as [p IH|p IH|]; intros mrs H; cbn [iter_pos].
  - apply IH, IH, shr_1_nonneg, H.
  - apply IH, IH, H.
  - apply shr_1_nonneg, H.
Qed.

Lemma shr_fexp_nonneg m e l :
  (0 <= m -> 0 <= shr_m (fst (shr_fexp prec emax m e l)))%Z.
Proof.
  intros H. unfold shr_fexp, shr.
  assert (H0 : (0 <= shr_m (shr_record_of_loc m l))%Z)
    by (destruct l as [|[]]; exact H).
  destruct (_ - e)%Z; cbn [fst]; try exact H0.
  apply iter_pos_shr_1_nonneg, H0.
Qed.

Lemma round_nearest_even_nonneg m l :
  (0 <= m -> 0 <= round_nearest_even m l)%Z.
Proof.
  intros H. destruct l as [|[]]; cbn [round_nearest_even];
    try destruct (Z.even m); lia.
Qed.

(** Rounding keeps the sign it is given. *)
Lemma binary_round_aux_signed s m e l :
  (0 <= m)%Z -> signed s (binary_round_aux prec emax s m e l).
Proof.
  intros H. unfold binary_round_aux.
  pose proof (shr_fexp_nonneg m e l H) as H1.
  destruct (shr_fexp prec emax m e l) as [mrs' e']. cbn [fst] in H1.
  pose proof (shr_fexp_nonneg _ e' loc_Exact
                (round_nearest_even_nonneg _ (loc_of_shr_record mrs') H1))
    as H2.
  destruct (shr_fexp prec emax _ e' loc_Exact) as [mrs'' e''].
  cbn [fst] in H2.
  destruct (shr_m mrs'') as [|q|q]; [| |lia].
  - split; [discriminate | reflexivity].
  - destruct (e'' <=? emax - prec)%Z; split; (discriminate || reflexivity).
Qed.

Lemma binary_round_signed s m e :
  signed s (binary_round prec emax s m e).
Proof.
  unfold binary_round.
  destruct (shl_align m e _) as [mz ez].
  apply binary_round_aux_signed. lia.
Qed.

(** The product with a positive finite float keeps the sign. *)
Lemma fmul_signed s x my ey :
  signed s x -> signed s (fmul x (S754_finite false my ey)).
Proof.
  intros [Hn Hs]. unfold fmul, SFmul.
  destruct x as [sx|sx| |sx mx ex]; cbn [sign_bit] in Hs; subst;
    try (exfalso; apply Hn; reflexivity);
    rewrite xorb_false_r.
  - split; [discriminate | reflexivity].
  - split; [discriminate | reflexivity].
  - apply binary_round_aux_signed. lia.
Qed.

(** So does the quotient by a positive finite float. *)
Lemma fdiv_signed s x my ey :
  signed s x -> signed s (fdiv x (S754_finite false my ey)).
Proof.
  intros [Hn Hs]. unfold fdiv, SFdiv.
  destruct x as [sx|sx| |sx mx ex]; cbn [sign_bit] in Hs; subst;
    try (exfalso; apply Hn; reflexivity);
    rewrite xorb_false_r.
  - split; [discriminate | reflexivity].
  - split; [discriminate | reflexivity].
  - unfold SFdiv_core_binary.
    set (m' := match (ex - ey - _)%Z with
               | Z0 => Z.pos mx
               | Z.pos _ => Z.shiftl (Z.pos mx) _
               | Z.neg _ => 0%Z
               end).
    assert (Hm' : (0 <= m')%Z).
    { unfold m'. destruct (ex - ey - _)%Z; try lia.
      apply Z.shiftl_nonneg. lia. }
    pose proof (Z_div_mod m' (Z.pos my) ltac:(lia)) as Hd.
    destruct (Z.div_eucl m' (Z.pos my)) as [q r].
    apply binary_round_aux_signed. nia.
Qed.

Lemma shl_align_value m e ez :
  (ez <= e)%Z ->
  (inject_Z (Z.pos (fst (shl_align m e ez))) * 2 ^ ez == exact_abs m e)%Q.
Proof.
  intros Hle. unfold shl_align, exact_abs.
  destruct (ez - e)%Z as [|d|d] eqn:Ed; cbn [fst].
  - assert (ez = e) by lia. subst. reflexivity.
  - lia.
  - change (Pos.iter xO m d) with (shift_pos d m).
    rewrite shift_pos_correct.
    change (Z.pow_pos 2 d) with (2 ^ Z.pos d)%Z.
    rewrite inject_Z_mult, Zpower_Qpower by lia.
    assert (He : e = (Z.pos d + ez)%Z) by lia.
    rewrite He, Qpower_plus by discriminate.
    change (inject_Z 2) with 2%Q. ring.
Qed.

(** The sign of a difference of finite floats is that of the difference
    of their exact values; equal values give a positive zero. *)
Lemma fsub_signed sp mp ep mq eq :
  signed (if Qlt_le_dec (exact (S754_finite sp mp ep))
                        (exact (S754_finite false mq eq))
          then true else false)
         (fsub (S754_finite sp mp ep) (S754_finite false mq eq)).
Proof.
  unfold fsub, SFsub.
  set (ez := Z.min ep eq).
  pose proof (shl_align_value mp ep ez ltac:(lia)) as Hp.
  pose proof (shl_align_value mq eq ez ltac:(lia)) as Hq.
  set (Mp := fst (shl_align mp ep ez)) in *.
  set (Mq := fst (shl_align mq eq ez)) in *.
  assert (H2 : (0 < 2 ^ ez)%Q) by (apply Qpower_0_lt; reflexivity).
  assert (Hz : (exact (S754_finite sp mp ep)
                - exact (S754_finite false mq eq)
                == inject_Z (cond_Zopp sp (Z.pos Mp)
                             - cond_Zopp false (Z.pos Mq)) * 2 ^ ez)%Q).
  { cbn [exact cond_Zopp].
    generalize dependent (exact_abs mp ep).
    generalize dependent (exact_abs mq eq).
    intros vq Hq vp Hp.
    destruct sp; cbn [cond_Zopp]; unfold Z.sub;
      rewrite inject_Z_plus, !inject_Z_opp; lra. }
  set (z := (cond_Zopp sp (Z.pos Mp) - cond_Zopp false (Z.pos Mq))%Z) in *.
  assert (Hsign : forall b,
            ((z < 0)%Z -> b = true) -> ((0 <= z)%Z -> b = false) ->
            (if Qlt_le_dec (exact (S754_finite sp mp ep))
                           (exact (S754_finite false mq eq))
             then true else false) = b).
  { intros b Hneg Hpos.
    destruct (Qlt_le_dec _ _) as [Hlt|Hge].
    - symmetry. apply Hneg.
      assert (H : (inject_Z z * 2 ^ ez < 0)%Q) by (rewrite <- Hz; lra).
      destruct (Z_lt_le_dec z 0) as [Hz0|Hz0]; [exact Hz0|exfalso].
      assert (0 <= inject_Z z)%Q
        by (change 0%Q with (inject_Z 0); rewrite <- Zle_Qle; exact Hz0).
      assert (0 <= inject_Z z * 2 ^ ez)%Q
        by (apply Qmult_le_0_compat; [assumption | lra]).
      lra.
    - symmetry. apply Hpos.
      assert (H : (0 <= inject_Z z * 2 ^ ez)%Q) by (rewrite <- Hz; lra).
      destruct (Z_lt_le_dec z 0) as [Hz0|Hz0]; [exfalso|exact Hz0].
      assert (inject_Z z < 0)%Q
        by (change 0%Q with (inject_Z 0); rewrite <- Zlt_Qlt; exact Hz0).
      assert (inject_Z z * 2 ^ ez < 0 * 2 ^ ez)%Q
        by (apply Qmult_lt_compat_r; assumption).
      lra. }
  unfold binary_normalize.
  destruct z as [|n|n].
  - rewrite (Hsign false); [split; [discriminate | reflexivity] | lia | auto].
  - rewrite (Hsign false); [apply binary_round_signed | lia | auto].
  - rewrite (Hsign true); [apply binary_round_signed | auto | lia].
Qed.

Lemma format_signed_2f_signed s x :
  signed s x ->
  exists rest,
    format_signed_2f x = String (if s then "-" else "+")%char rest.
Proof.
  intros [Hn Hs].
  destruct x as [sx|sx| |sx mx ex]; cbn [sign_bit] in Hs; subst;
    try (exfalso; apply Hn; reflexivity);
    unfold format_signed_2f, format_fixed2; destruct s; cbn; eauto.
Qed.


(** X7.  A change percent that reads as -100 (the price fell to less than
    a twenty-thousandth of the previous close) makes the divisor of the
    derived change zero.  Under a price that is a Python float the
    division raises: no record is built and the ticker is given up.
    Under a numpy.float64, the price of the five-day window, the quotient
    is an infinity and a record is built whose change is an infinity
    of the opposite sign, -inf for a positive price. *)
Theorem collapse_gives_up {L : PyLib} cfg o tid old p :
  collect_quote o = (Some p, "-100.00%") ->
  match p with
  | PyFloat _ => get_stock_data cfg o tid old = None
  | NumPy x =>
      forall r,
        get_stock_data cfg o tid old = Some r ->
        json_path ["basicInfo"; "change"] r =
          Some (JStr match x with
                     | S754_finite s _ _ => if s then "+inf" else "-inf"
                     | _ => "+nan"
                     end)
  end.
Proof.
  intros Hq.
  assert (Hrec : forall r,
    get_stock_data cfg o tid old = Some r ->
    (exists x, p = NumPy x) /\
    json_path ["basicInfo"; "change"] r =
      Some (JStr (format_signed_2f
                    (fsub (value p) (fdiv (value p) (S754_zero false)))))).
  { intros r H.
    destruct (record_basic_info _ _ _ _ _ H) as (p' & pct & Hp & Hpct & Hd & Hr).
    rewrite Hq in Hp, Hpct, Hr. cbn [fst snd] in Hp, Hpct, Hr.
    injection Hp as <-.
    vm_compute in Hpct. injection Hpct as <-.
    change (fadd float_1 (fdiv (S754_finite true 7036874417766400 (-46))
                               float_100))
      with (S754_zero false) in Hd, Hr.
    split; [apply Hd; reflexivity|].
    cbn [json_path] in Hr |- *.
    destruct r as [| | | | | |d]; try discriminate Hr.
    destruct (dict_lookup "basicInfo" d) as [b|]; [|discriminate Hr].
    injection Hr as ->. reflexivity. }
  destruct p as [x|x].
  - destruct (get_stock_data cfg o tid old) as [r|] eqn:Eg; [|reflexivity].
    destruct (Hrec r eq_refl) as ((y & Hy) & _). discriminate Hy.
  - intros r H. destruct (Hrec r H) as (_ & ->). cbn [value].
    destruct x as [s|s| |s m e]; try (destruct s; reflexivity); reflexivity.
Qed.

Lemma collapse_gives_up_witness :
  get_stock_data ex_settings ex_outcomes_collapse "2330"
                 (Some ex_previous) = None /\
  exists r,
    get_stock_data ex_settings ex_outcomes_collapse_window "2330" None
      = Some r /\
    json_path ["basicInfo"; "change"] r = Some (JStr "-inf").
Proof.
  split.
  - exact (collapse_gives_up (L := ex_lib) ex_settings ex_outcomes_collapse
             "2330" (Some ex_previous) (PyFloat (dec 1 3))
             ltac:(vm_compute; reflexivity)).
  - eexists. split; [vm_compute; reflexivity|].
    refine (collapse_gives_up (L := ex_lib) ex_settings
              ex_outcomes_collapse_window "2330" None (NumPy (dec 4 3))
              ltac:(vm_compute; reflexivity) _ _).
    vm_compute. reflexivity.
Defined.

(** X22.  With a positive previous close and a price that is a finite
    number the change percent begins with a minus sign exactly when the
    price is below the previous close, also when the fall rounds to
    nothing (-0.00%); otherwise it begins with a plus sign.  Rounding
    never turns the sign. *)
Theorem change_percent_sign (p : spec_float) (mq : positive) (eq : Z) :
  float_is_finite p = true ->
  let q := S754_finite false mq eq in
  exists rest,
    change_percent p q =
    String (if Qlt_le_dec (exact p) (exact q) then "-" else "+")%char rest.
Proof.
  intros Hp q. unfold change_percent.
  assert (H : signed (if Qlt_le_dec (exact p) (exact q)
                      then true else false) (fsub p q)).
  { destruct p as [s|s| |sp mp ep]; try discriminate Hp.
    - pose proof (exact_abs_pos mq eq) as Hq.
      cbn [exact]. unfold q. cbn [exact fsub SFsub negb].
      destruct (Qlt_le_dec 0 (exact_abs mq eq)) as [_|Hle];
        [split; [discriminate | reflexivity] | lra].
    - apply fsub_signed. }
  apply (fdiv_signed _ _ mq eq) in H.
  apply (fmul_signed _ _ 7036874417766400 (-46)) in H.
  apply format_signed_2f_signed in H as (rest & Hr).
  fold q in Hr. change (S754_finite false 7036874417766400 (-46))
    with float_100 in Hr.
  rewrite Hr. cbn [append].
  destruct (Qlt_le_dec (exact p) (exact q)); eauto.
Qed.

Lemma change_percent_sign_witness :
  exists rest,
    change_percent (dec 539999 3) (dec 540 0) = String "-"%char rest.
Proof.
  exact (change_percent_sign (S754_finite false 4749881435899298 (-43))
                             4749890231992320 (-43) eq_refl).
Defined.

(* ================================================================= *)
(** ** More on the merge *)



(** What [ask_models] returns is the loop's result, or the initial
    values when no key is configured. *)
Lemma ask_models_Ok {L : PyLib} cfg o sid price cp chart news name ai :
  ask_models cfg o sid price cp chart news = Ok (name, ai) ->
  if key_configured cfg then
    exists info prompt,
      info_at_name o = Ok info /\
      name = json_of_scalar (dict_get "longName" (SStr sid) info) /\
      ai = failover (generate_content o) prompt 0 (MODEL_PRIORITY cfg)
  else
    name = JStr sid /\
    ai = {| ai_res := JObj []; model_used := "N/A"; attempts := [] |}.
Proof.
  unfold ask_models. destruct (key_configured cfg).
  - intros H. split_bind H. split_bind H. split_bind H.
    injection H as <- <-. eauto.
  - intros H. injection H as <- <-. auto.
Qed.



(** X10.  The sections the accepted answer has are copied into the
    record as they are, whatever their type: industry, news_events,
    technical and dividend at the top, eps_table and revenue_trend under
    financials, pe_status and roe under valuation. *)
Theorem answer_sections_copied {L : PyLib} cfg o tid old r :
  get_stock_data cfg o tid old = Some r ->
  exists hist name ai,
    history_1y o = Ok hist /\
    ask_models cfg o (replace ".TW" EmptyString tid)
               (fst (collect_quote o)) (snd (collect_quote o))
               (chart_of hist) (collect_news o) = Ok (name, ai) /\
    forall ks v,
      In ks [["industry"]; ["news_events"]; ["technical"]; ["dividend"];
             ["financials"; "eps_table"]; ["financials"; "revenue_trend"];
             ["financials"; "valuation"; "pe_status"];
             ["financials"; "valuation"; "roe"]] ->
      json_path ks (ai_res ai) = Some v ->
      json_path ks r = Some v.
Proof.
  intros H.
  apply get_stock_data_Some in H as (hist & name & ai & _ & Hh & Ha & Hm).
  exists hist, name, ai. split; [exact Hh|]. split; [exact Ha|].
  apply merge_Ok_answer in Hm
    as (da & df & dv & dr & Eai & Efin & Eval & Eriv &
        H1 & H2 & H3 & H4 & H5 & H6 & H7 & H8 & _).
  rewrite Eai.
  assert (Hstep : forall k d d' v,
            dict_get k (JObj []) d = JObj d' ->
            dict_lookup k d = Some v -> v = JObj d').
  { intros k d d' v Hg Hl. rewrite (dict_get_lookup _ _ _ _ Hl) in Hg.
    exact Hg. }
  intros ks v Hin Hv.
  destruct Hin as [<-|[<-|[<-|[<-|[<-|[<-|[<-|[<-|[]]]]]]]]]; simpl in Hv.
  - destruct (dict_lookup "industry" da) eqn:E; [|discriminate].
    rewrite H1, (dict_get_lookup _ _ _ _ E). exact Hv.
  - destruct (dict_lookup "news_events" da) eqn:E; [|discriminate].
    rewrite H2, (dict_get_lookup _ _ _ _ E). exact Hv.
  - destruct (dict_lookup "technical" da) eqn:E; [|discriminate].
    rewrite H3, (dict_get_lookup _ _ _ _ E). exact Hv.
  - destruct (dict_lookup "dividend" da) eqn:E; [|discriminate].
    rewrite H4, (dict_get_lookup _ _ _ _ E). exact Hv.
  - destruct (dict_lookup "financials" da) as [f|] eqn:E1; [|discriminate].
    rewrite (Hstep _ _ _ _ Efin E1) in Hv.
    destruct (dict_lookup "eps_table" df) eqn:E; [|discriminate].
    rewrite H5, (dict_get_lookup _ _ _ _ E). exact Hv.
  - destruct (dict_lookup "financials" da) as [f|] eqn:E1; [|discriminate].
    rewrite (Hstep _ _ _ _ Efin E1) in Hv.
    destruct (dict_lookup "revenue_trend" df) eqn:E; [|discriminate].
    rewrite H6, (dict_get_lookup _ _ _ _ E). exact Hv.
  - destruct (dict_lookup "financials" da) as [f|] eqn:E1; [|discriminate].
    rewrite (Hstep _ _ _ _ Efin E1) in Hv.
    destruct (dict_lookup "valuation" df) as [w|] eqn:E2; [|discriminate].
    rewrite (Hstep _ _ _ _ Eval E2) in Hv.
    destruct (dict_lookup "pe_status" dv) eqn:E; [|discriminate].
    rewrite H7, (dict_get_lookup _ _ _ _ E). exact Hv.
  - destruct (dict_lookup "financials" da) as [f|] eqn:E1; [|discriminate].
    rewrite (Hstep _ _ _ _ Efin E1) in Hv.
    destruct (dict_lookup "valuation" df) as [w|] eqn:E2; [|discriminate].
    rewrite (Hstep _ _ _ _ Eval E2) in Hv.
    destruct (dict_lookup "roe" dv) eqn:E; [|discriminate].
    rewrite H8, (dict_get_lookup _ _ _ _ E). exact Hv.
Qed.

(** The second model's answer has all eight sections; each is found in
    the record as the answer has it. *)
Lemma answer_sections_copied_witness :
  Forall (fun ks =>
            json_path ks ex_full_answer <> None /\
            json_path ks ex_merged_failover = json_path ks ex_full_answer)
         [["industry"]; ["news_events"]; ["technical"]; ["dividend"];
          ["financials"; "eps_table"]; ["financials"; "revenue_trend"];
          ["financials"; "valuation"; "pe_status"];
          ["financials"; "valuation"; "roe"]].
Proof.
  destruct (answer_sections_copied (L := ex_lib) ex_settings
              ex_outcomes_failover "2330.TW" None ex_merged_failover
              ltac:(vm_compute; reflexivity))
    as (hist & name & ai & Hh & Ha & Hcopy).
  injection Hh as <-.
  vm_compute in Ha. injection Ha as _ <-.
  repeat (apply Forall_cons;
          [split; [discriminate
                  | eapply Hcopy; [cbn; tauto | reflexivity]]|]).
  apply Forall_nil.
Defined.

Lemma replace_absent old new s :
  contains old s = false -> replace old new s = s.
Proof.
  unfold replace. induction s as [|c s IH]; simpl; intros H.
  - reflexivity.
  - apply orb_false_elim in H as [Hp Hc].
    simpl in Hp. rewrite Hp. rewrite (IH Hc). reflexivity.
Qed.

(** X11.  The fields that identify a record come from the run and the
    market data, never from the answer: the id is the target without its
    market suffix (the target itself when it has none), the time is the
    clock's, pb is the text of the provider's price-to-book ratio (a dash
    when the provider has none), and the name is the provider's long name
    when a key is configured (the id when the provider has none) and
    simply the id when no key is configured. *)
Theorem record_identity_fields {L : PyLib} cfg o tid old r :
  get_stock_data cfg o tid old = Some r ->
  let sid := replace ".TW" EmptyString tid in
  json_path ["id"] r = Some (JStr sid) /\
  (contains ".TW" tid = false -> sid = tid) /\
  json_path ["lastUpdated"] r = Some (JStr (now o)) /\
  (exists info,
     info_at_pb o = Ok info /\
     json_path ["financials"; "valuation"; "pb"] r =
       Some (JStr (py_str (dict_get "priceToBook" (SStr "-") info)))) /\
  (if key_configured cfg then
     exists info,
       info_at_name o = Ok info /\
       json_path ["name"] r =
         Some (json_of_scalar (dict_get "longName" (SStr sid) info))
   else json_path ["name"] r = Some (JStr sid)).
Proof.
  intros H sid.
  apply get_stock_data_Some in H as (hist & name & ai & _ & _ & Ha & Hm).
  apply merge_Ok in Hm.
  destruct Hm as (? & ? & ? & ? & ? & ? & ? & ? & ? & info & ? & ? & ? & Hm).
  destruct Hm as (_ & _ & _ & _ & Hinfo & ->).
  split; [reflexivity|].
  split; [apply replace_absent|].
  split; [reflexivity|].
  split; [exists info; split; [exact Hinfo | reflexivity]|].
  apply ask_models_Ok in Ha. fold sid in Ha.
  destruct (key_configured cfg).
  - destruct Ha as (info' & prompt & Hi & -> & _).
    exists info'. split; [exact Hi | reflexivity].
  - destruct Ha as (-> & _). reflexivity.
Qed.

Lemma record_identity_fields_witness :
  json_path ["id"] ex_merged = Some (JStr "2330") /\
  json_path ["financials"; "valuation"; "pb"] ex_merged = Some (JStr "5.2").
Proof.
  destruct (record_identity_fields (L := ex_lib) ex_settings
              (ex_outcomes (Ok ex_answer_text)) "2330.TW" (Some ex_previous)
              ex_merged ltac:(vm_compute; reflexivity))
    as (Hid & _ & _ & (info & Hinfo & Hpb) & _).
  split.
  - rewrite Hid. reflexivity.
  - rewrite Hpb. injection Hinfo as <-. vm_compute. reflexivity.
Defined.

(** X12.  Every record that is built has the same keys in the same
    order, at the top and in its nested blocks, whatever keys the answer
    had. *)
Theorem record_shape {L : PyLib} cfg o tid old r :
  get_stock_data cfg o tid old = Some r ->
  keys_at [] r =
    Some ["id"; "name"; "category"; "lastUpdated"; "ai_model"; "memo";
          "basicInfo"; "industry"; "news_events"; "financials";
          "technical"; "dividend"] /\
  keys_at ["basicInfo"] r = Some ["price"; "change"; "changePercent"] /\
  keys_at ["financials"] r =
    Some ["eps_table"; "revenue_trend"; "valuation"] /\
  keys_at ["financials"; "valuation"] r =
    Some ["pe_status"; "pb"; "roe"; "pe_river_data"] /\
  keys_at ["financials"; "valuation"; "pe_river_data"] r =
    Some ["dates"; "price"; "pe20"; "pe16"; "pe12"].
Proof.
  intros H.
  apply get_stock_data_Some in H as (hist & name & ai & _ & _ & _ & Hm).
  apply merge_Ok in Hm.
  destruct Hm as (? & ? & ? & ? & ? & ? & ? & ? & ? & ? & ? & ? & ? & Hm).
  destruct Hm as (_ & _ & _ & _ & _ & ->).
  repeat split.
Qed.

Lemma record_shape_witness :
  keys_at ["financials"; "valuation"; "pe_river_data"] ex_merged =
    Some ["dates"; "price"; "pe20"; "pe16"; "pe12"].
Proof.
  apply (record_shape (L := ex_lib) ex_settings
           (ex_outcomes (Ok ex_answer_text)) "2330.TW" (Some ex_previous)
           ex_merged ltac:(vm_compute; reflexivity)).
Defined.

(* ================================================================= *)
(** ** More on the chart *)







(* ================================================================= *)
(** ** More on the previous record and the run *)

(** X14.  Of the previous record only the category and the memo reach
    the new one: two previous records that agree on these two give the
    same result, so nothing else of an analysis stored before enters a
    record that is built anew. *)
Theorem only_category_and_memo_survive {L : PyLib} cfg o tid
        (d d' : dict json) :
  d <> [] -> d' <> [] ->
  dict_lookup "category" d = dict_lookup "category" d' ->
  dict_lookup "memo" d = dict_lookup "memo" d' ->
  get_stock_data cfg o tid (Some (JObj d)) =
  get_stock_data cfg o tid (Some (JObj d')).
Proof.
  intros Hd Hd' Hc Hm.
  assert (Hcar : forall k dflt,
            dict_lookup k d = dict_lookup k d' ->
            carried k dflt (Some (JObj d)) = carried k dflt (Some (JObj d'))).
  { intros k dflt Hk. unfold carried. simpl.
    destruct d; [congruence|]. destruct d'; [congruence|].
    unfold dict_get. rewrite Hk. reflexivity. }
  unfold get_stock_data, get_stock_data_body.
  destruct (ticker_object o) as [[]|]; cbn [bind]; [|reflexivity].
  destruct (collect_quote o) as [price cp].
  destruct (is_zero price); [reflexivity|].
  destruct (history_1y o) as [hist|]; cbn [bind]; [|reflexivity].
  destruct (ask_models _ _ _ _ _ _ _) as [[name ai]|]; cbn [bind];
    [|reflexivity].
  unfold merge.
  rewrite (Hcar "category" (JStr new_category) Hc).
  rewrite (Hcar "memo" (JStr EmptyString) Hm).
  reflexivity.
Qed.

Lemma only_category_and_memo_survive_witness :
  get_stock_data ex_settings (ex_outcomes (Raise ProviderError)) "2330"
    (Some (JObj [("category", JStr "core holding");
                 ("memo", JStr "watch for earnings");
                 ("industry", JObj [("moat_status", JStr "wide")])])) =
  get_stock_data ex_settings (ex_outcomes (Raise ProviderError)) "2330"
    (Some (JObj [("category", JStr "core holding");
                 ("memo", JStr "watch for earnings")])).
Proof.
  apply only_category_and_memo_survive;
    [discriminate | discriminate | reflexivity | reflexivity].
Defined.

Lemma note_id_NoDup seen i : NoDup seen -> NoDup (note_id seen i).
Proof.
  intros H. unfold note_id.
  destruct (existsb (String.eqb i) seen) eqn:E; [exact H|].
  apply NoDup_app; [exact H | repeat constructor; intros [] |].
  intros x Hx [<-|[]].
  apply in_str_list_In in Hx. unfold in_str_list in Hx. congruence.
Qed.

Lemma build_old_map_NoDup current :
  forall acc m,
    NoDup (dict_keys acc) ->
    build_old_map current acc = Ok m ->
    NoDup (dict_keys m).
Proof.
  induction current as [|item rest IH]; simpl; intros acc m Hnd H.
  - injection H as <-. exact Hnd.
  - split_bind H. destruct a as [i d].
    apply (IH (dict_set i d acc) m); [|exact H].
    rewrite dict_keys_set. apply note_id_NoDup. exact Hnd.
Qed.

(** X15.  No target stands twice in the target list: each ticker is
    processed once in a run. *)
Theorem targets_distinct {L : PyLib} w targets :
  targets_of w = Ok targets -> NoDup targets.
Proof.
  unfold targets_of. intros H. split_bind H. injection H as <-.
  assert (Hk : NoDup (dict_keys a)).
  { apply (build_old_map_NoDup (get_current_list w) [] a);
      [constructor | exact Ha]. }
  unfold add_target.
  destruct (cli_add w) as [s|]; [|exact Hk].
  destruct (str_truthy s); [|exact Hk].
  destruct (in_str_list (str_upper (str_strip s)) (dict_keys a)) eqn:E; [exact Hk|].
  simpl. constructor; [|exact Hk].
  intros Hin. apply in_str_list_In in Hin. congruence.
Qed.

Lemma targets_distinct_witness : NoDup ["D"; "A"; "B"; "C"].
Proof.
  apply (targets_distinct (L := ex_lib) ex_world). reflexivity.
Defined.

(** What one turn of the loop appends is an object with a string id and
    a name. *)
Lemma process_target_valid {L : PyLib} w old_map0 sid r :
  build_old_map (get_current_list w) [] = Ok old_map0 ->
  In r (process_target w (snd (add_target (cli_add w) old_map0)) sid) ->
  exists i d, item_id r = Ok (i, d) /\ dict_mem "name" d = true.
Proof.
  intros Hb. unfold process_target.
  set (old_map := snd (add_target (cli_add w) old_map0)).
  assert (Hprev : forall r,
    In r (match dict_lookup sid old_map with
          | Some prev => if dict_mem "name" prev then [JObj prev] else []
          | None => []
          end) ->
    exists i d, item_id r = Ok (i, d) /\ dict_mem "name" d = true).
  { intros r0 Hin.
    destruct (add_target_lookup (cli_add w) old_map0 sid) as [E|[_ E]];
      fold old_map in E; rewrite E in Hin.
    - destruct (dict_lookup sid old_map0) as [prev|] eqn:E0; [|destruct Hin].
      destruct (dict_mem "name" prev) eqn:En; [|destruct Hin].
      destruct Hin as [<-|[]].
      destruct (build_old_map_sound _ _ _ Hb _ _ E0) as [Hacc|[_ Hid]];
        [discriminate|].
      exists sid, prev. unfold item_id. rewrite Hid. auto.
    - destruct Hin. }
  destruct (get_stock_data _ _ _ _) as [r0|] eqn:Eg; [|apply Hprev].
  apply get_stock_data_Some in Eg as (hist & name & ai & _ & _ & _ & Hm).
  apply merge_Ok in Hm.
  destruct Hm as (? & ? & ? & ? & ? & ? & ? & ? & ? & ? & ? & ? & ? & Hm).
  destruct Hm as (_ & _ & _ & _ & _ & ->).
  cbn [json_truthy]. intros [<-|[]].
  eexists _, _. split; reflexivity.
Qed.

Lemma build_old_map_total current :
  Forall (fun r => exists i d, item_id r = Ok (i, d)) current ->
  forall acc, exists m, build_old_map current acc = Ok m.
Proof.
  induction 1 as [|item rest (i & d & Hi) _ IH]; intros acc; simpl.
  - eauto.
  - rewrite Hi. simpl. apply IH.
Qed.

(** X16.  What a run hands over for writing can be read by the next
    run: every record is an object with a string id and a name, so the
    next run does not stop on it and can carry each record over. *)
Theorem output_is_valid_state {L : PyLib} w out :
  main w = Ok out ->
  Forall (fun r => exists i d,
            item_id r = Ok (i, d) /\ dict_mem "name" d = true) out /\
  exists m, build_old_map out [] = Ok m.
Proof.
  unfold main. intros H. split_bind H. rename a into m0.
  destruct (add_target (cli_add w) m0) as [ts om] eqn:Ea.
  injection H as <-.
  assert (Hv : Forall (fun r => exists i d,
                 item_id r = Ok (i, d) /\ dict_mem "name" d = true)
                 (run_loop w om ts)).
  { rewrite run_loop_flat_map. apply Forall_forall. intros r Hr.
    apply in_flat_map in Hr as (sid & _ & Hr).
    apply (process_target_valid w m0 sid r Ha).
    rewrite Ea. exact Hr. }
  split; [exact Hv|].
  apply build_old_map_total.
  eapply Forall_impl; [|exact Hv].
  intros r (i & d & Hi & _). eauto.
Qed.

Lemma output_is_valid_state_witness :
  exists m,
    build_old_map [ex_record "A"; ex_record "B"; ex_record "C"] [] = Ok m.
Proof.
  apply (output_is_valid_state (L := ex_lib) ex_world). reflexivity.
Defined.

Lemma dict_set_new {V} k (v : V) d :
  ~ In k (dict_keys d) -> dict_set k v d = (d ++ [(k, v)])%list.
Proof.
  induction d as [|[k0 v0] d IH]; simpl; intros H; [reflexivity|].
  destruct (String.eqb k k0) eqn:E.
  - apply String.eqb_eq in E. subst. exfalso. apply H. left. reflexivity.
  - f_equal. apply IH. intros Hin. apply H. right. exact Hin.
Qed.

Lemma build_old_map_distinct (recs : list (string * dict json)) :
  Forall (fun p => dict_lookup "id" (snd p) = Some (JStr (fst p))) recs ->
  forall acc,
    NoDup (dict_keys acc ++ map fst recs) ->
    build_old_map (map (fun p => JObj (snd p)) recs) acc
      = Ok (acc ++ recs)%list.
Proof.
  induction 1 as [|[i d] recs Hid _ IH]; intros acc Hnd; simpl.
  - rewrite app_nil_r. reflexivity.
  - simpl in Hid. rewrite Hid. simpl.
    assert (Hfresh : ~ In i (dict_keys acc)).
    { intros Hin. simpl in Hnd. apply NoDup_remove_2 in Hnd. apply Hnd.
      apply in_or_app. left. exact Hin. }
    rewrite (dict_set_new _ _ _ Hfresh), IH.
    + rewrite <- app_assoc. reflexivity.
    + unfold dict_keys in *. rewrite map_app, <- app_assoc. exact Hnd.
Qed.

Lemma dict_lookup_distinct {V} (d : dict V) k v :
  NoDup (dict_keys d) -> In (k, v) d -> dict_lookup k d = Some v.
Proof.
  induction d as [|[k0 v0] d IH]; simpl; intros Hnd Hin; [destruct Hin|].
  inversion Hnd as [|? ? Hk0 Hnd']. subst.
  destruct Hin as [E|Hin].
  - injection E as -> ->. rewrite String.eqb_refl. reflexivity.
  - destruct (String.eqb k k0) eqn:E.
    + apply String.eqb_eq in E. subst k0. exfalso. apply Hk0.
      apply in_map_iff. exists (k, v). auto.
    + apply IH; assumption.
Qed.

(** X17.  When no ticker has a price, a run over previous records with
    distinct ids that all have a name hands over the previous list as it
    was, whether or not an id was added: the state survives an outage of
    the market data. *)
Theorem outage_keeps_state {L : PyLib} w
        (recs : list (string * dict json)) :
  get_current_list w = map (fun p => JObj (snd p)) recs ->
  Forall (fun p => dict_lookup "id" (snd p) = Some (JStr (fst p))) recs ->
  Forall (fun p => dict_mem "name" (snd p) = true) recs ->
  NoDup (map fst recs) ->
  (forall sid, is_zero (fst (collect_quote (ticker_outcomes w sid))) = true) ->
  main w = Ok (get_current_list w).
Proof.
  intros Hcur Hid Hname Hnd Hzero.
  assert (Hb : build_old_map (get_current_list w) [] = Ok recs).
  { rewrite Hcur. apply (build_old_map_distinct recs Hid []). exact Hnd. }
  unfold main. rewrite Hb. cbn [bind].
  destruct (add_target (cli_add w) recs) as [ts om] eqn:Ea.
  f_equal. rewrite run_loop_flat_map.
  assert (Hturn : forall sid,
    process_target w om sid =
    match dict_lookup sid recs with
    | Some prev => if dict_mem "name" prev then [JObj prev] else []
    | None => []
    end).
  { intros sid.
    pose proof (total_failure_turn w recs sid Hb (Hzero sid)) as H.
    rewrite Ea in H. exact H. }
  assert (Hknown : flat_map (process_target w om) (map fst recs)
                   = map (fun p => JObj (snd p)) recs).
  { assert (Hall : forall p, In p recs ->
              process_target w om (fst p) = [JObj (snd p)]).
    { intros [i d] Hin. rewrite Hturn. simpl.
      rewrite (dict_lookup_distinct recs i d Hnd Hin).
      rewrite Forall_forall in Hname. specialize (Hname _ Hin).
      simpl in Hname. rewrite Hname. reflexivity. }
    clear - Hall. induction recs as [|p recs IH]; [reflexivity|].
    simpl. rewrite (Hall p (or_introl eq_refl)). simpl. f_equal.
    apply IH. intros q Hq. apply Hall. right. exact Hq. }
  rewrite Hcur.
  unfold add_target in Ea.
  destruct (cli_add w) as [a|];
    [|injection Ea as <- <-; exact Hknown].
  destruct (str_truthy a); [|injection Ea as <- <-; exact Hknown].
  destruct (in_str_list (str_upper (str_strip a)) (dict_keys recs)) eqn:Ein;
    [injection Ea as <- <-; exact Hknown|].
  injection Ea as <- Eom. cbn [flat_map]. unfold dict_keys.
  rewrite Hknown, Hturn.
  destruct (dict_lookup (str_upper (str_strip a)) recs) eqn:El; [|reflexivity].
  exfalso.
  assert (Hin : In (str_upper (str_strip a)) (dict_keys recs))
    by (apply dict_keys_lookup; congruence).
  apply in_str_list_In in Hin. congruence.
Qed.

Lemma outage_keeps_state_witness :
  main ex_world = Ok [ex_record "A"; ex_record "B"; ex_record "C"].
Proof.
  apply (outage_keeps_state (L := ex_lib) ex_world ex_old_map).
  - reflexivity.
  - repeat constructor.
  - repeat constructor.
  - repeat constructor; simpl; intuition discriminate.
  - intros sid. reflexivity.
Defined.



(* ================================================================= *)
(** ** More on the answer text and the prompt *)

Lemma prefix_app_l a :
  forall b s, prefix (a ++ b) s = true -> prefix a s = true.
Proof.
  induction a as [|x a IH]; intros b s H; [destruct s; reflexivity|].
  destruct s as [|y s]; simpl in *; [discriminate|].
  destruct (ascii_dec x y); [eapply IH; exact H | discriminate].
Qed.

Lemma contains_unfold old s :
  contains old s =
  prefix old s || match s with
                  | EmptyString => false
                  | String _ s' => contains old s'
                  end.
Proof. destruct s; reflexivity. Qed.

Lemma contains_app_l a b s :
  contains a s = false -> contains (a ++ b) s = false.
Proof.
  induction s as [|c s IH]; intros H.
  - rewrite (contains_unfold a EmptyString) in H.
    rewrite (contains_unfold (a ++ b) EmptyString).
    apply orb_false_elim in H as [Hp Hc].
    rewrite orb_false_r.
    destruct (prefix (a ++ b) EmptyString) eqn:E; [|reflexivity].
    apply prefix_app_l in E. congruence.
  - rewrite (contains_unfold a (String c s)) in H.
    rewrite (contains_unfold (a ++ b) (String c s)).
    apply orb_false_elim in H as [Hp Hc].
    rewrite (IH Hc), orb_false_r.
    destruct (prefix (a ++ b) (String c s)) eqn:E; [|reflexivity].
    apply prefix_app_l in E. congruence.
Qed.

(** X19.  An answer without a triple backquote is handed to the parser
    with nothing changed but what [str.strip()] takes off its ends. *)
Theorem strip_fences_unfenced {L : PyLib} (text : string) :
  contains "```" text = false -> strip_fences text = str_strip text.
Proof.
  intros H. unfold strip_fences.
  rewrite (replace_absent "```json" EmptyString text).
  - rewrite (replace_absent _ _ _ H). reflexivity.
  - exact (contains_app_l "```" "json" text H).
Qed.

Lemma strip_fences_unfenced_witness :
  strip_fences (String "010"%char "{}  ") = "{}".
Proof.
  rewrite (strip_fences_unfenced (L := ex_lib)); reflexivity.
Defined.

(** In a text without backquote nothing is replaced before its end, for
    a pattern that begins with a backquote. *)
Lemma replace_after_plain old' new body rest :
  contains "`" body = false ->
  replace_from 0 (String "`"%char old') new (body ++ rest) =
  body ++ replace_from 0 (String "`"%char old') new rest.
Proof.
  induction body as [|c body IH]; intros H; [reflexivity|].
  rewrite (contains_unfold "`" (String c body)) in H.
  apply orb_false_elim in H as [Hp Hc].
  cbn [append replace_from prefix]. cbn [prefix] in Hp.
  destruct (ascii_dec "`"%char c) as [E|E].
  - exfalso. destruct body; discriminate Hp.
  - rewrite (IH Hc). reflexivity.
Qed.

(** X20.  An answer wrapped in a json code fence, the body on lines of
    its own and free of backquotes, is unwrapped: both fence lines are
    removed, and the parser gets the body, between the two line breaks
    that are left, as [str.strip()] trims it. *)
Theorem strip_fences_fenced_body {L : PyLib} (body : string) :
  contains "`" body = false ->
  strip_fences ("```json" ++ String "010"%char
                  (body ++ String "010"%char "```")) =
  str_strip (String "010"%char (body ++ String "010"%char EmptyString)).
Proof.
  intros H. unfold strip_fences, replace. f_equal.
  cbn [append replace_from prefix String.length Nat.sub].
  repeat match goal with
         | |- context [ascii_dec ?a ?b] =>
             destruct (ascii_dec a b); [|congruence]
         end.
  cbn [append replace_from prefix].
  destruct (ascii_dec "`"%char "010"%char); [discriminate|].
  rewrite (replace_after_plain "``json" EmptyString body
             (String "010"%char "```") H).
  assert (E1 : replace_from 0 "```json" EmptyString (String "010"%char "```")
               = String "010"%char "```") by reflexivity.
  rewrite E1.
  cbn [replace_from prefix].
  destruct (ascii_dec "`"%char "010"%char); [discriminate|].
  rewrite (replace_after_plain "``" EmptyString body
             (String "010"%char "```") H).
  reflexivity.
Qed.

Lemma strip_fences_fenced_body_witness :
  strip_fences ("```json" ++ String "010"%char
                  ("{}" ++ String "010"%char "```")) = "{}".
Proof.
  rewrite (strip_fences_fenced_body (L := ex_lib)); reflexivity.
Defined.

(** X21.  The prompt is the template's text with the five facts put in,
    each once and in the order name, id, price, change percent, chart;
    composing it never fails, and what the facts contain (braces too) is
    put in as it is. *)
Theorem prompt_embeds_facts :
  exists t0 t1 t2 t3 t4 t5,
    literals_of PROMPT_TEMPLATE = [t0; t1; t2; t3; t4; t5] /\
    forall name sid price cp chart news,
      compose_prompt name sid price cp chart news =
      Ok (t0 ++ name ++ t1 ++ sid ++ t2 ++ price ++ t3 ++ cp ++ t4
             ++ chart ++ t5).
Proof.
  set (T := literals_of PROMPT_TEMPLATE).
  exists (nth 0 T EmptyString), (nth 1 T EmptyString),
         (nth 2 T EmptyString), (nth 3 T EmptyString),
         (nth 4 T EmptyString), (nth 5 T EmptyString).
  split.
  - vm_compute. reflexivity.
  - intros. unfold compose_prompt, format. vm_compute. reflexivity.
Qed.
